(** * ykush3: the command protocol of the YKUSH3 USB switch driver

    A shallow embedding of [ykush3.go].  The HID library the driver talks to
    ([github.com/sstallion/go-hid]) is an external collaborator: its calls are
    the operations of a small free monad, and a [Transport] gives them a
    meaning over a state of its own.  Running a method against a transport
    yields the values the Go method returns, the transport's final state and
    the list of HID calls in the order they were made. *)

From Stdlib Require Import ZArith Lia Ascii String.
From Stdlib Require Import Strings.Byte.
From stdpp Require Import base option list gmap pretty.

Local Open Scope Z_scope.

(** ** Constants and basic types *)

Definition VendorID : Z := 0x04D8.
Definition ProductID : Z := 0xF11B.
(** [ReportSize] is a buffer length, used only with [make]. *)
Definition ReportSize : nat := 64.

(** [type Port int] *)
Definition Port : Type := Z.
Definition Port1 : Port := 1.
Definition Port2 : Port := 2.
Definition Port3 : Port := 3.
Definition AllPorts : Port := 10.

(** [type PortState bool] *)
Definition PortState : Type := bool.
Definition PortOff : PortState := false.
Definition PortOn : PortState := true.

(** An open [*hid.Device]; the library owns what is behind it. *)
Definition Device : Type := nat.

(** An error value produced by the HID library, kept as its message. *)
Definition hid_error : Type := string.

(** [type YKUSH3 struct]; a nil [device] pointer is [None]. *)
Record YKUSH3 : Type := mkYKUSH3 {
  device : option Device;
  serial : string
}.

(** The error values the package builds, one constructor per
    [errors.New] / [fmt.Errorf] site, with the values it formats. *)
Inductive error : Type :=
| NotConnected
    (* errors.New("device not connected") *)
| SendFailed (e : hid_error)
    (* "failed to send command: %w" *)
| ReadFailed (e : hid_error)
    (* "failed to read response: %w" *)
| InvalidPort (port : Port)
    (* "invalid port: %d" *)
| InvalidPortForStateQuery (port : Port)
    (* "invalid port for state query: %d" *)
| UnexpectedResponse (status response : byte)
    (* "unexpected response: status=0x%02x, response=0x%02x" *)
| CommandFailed (status : byte)
    (* "command failed: status=0x%02x" *)
| UnexpectedStateResponse (response : byte)
    (* "unexpected state response: 0x%02x" *)
| GetStateFailed (port : Port) (e : error)
    (* "failed to get state for port %d: %w" *)
| HidError (e : hid_error)
    (* an error of the HID library returned as it is *).

(** The taxonomy the design documents use for those errors.  A wrapped error
    ([%w]) keeps the class of the error it wraps. *)
Inductive ErrorKind : Type :=
| ArgumentError | NotConnectedError | TransportError | ProtocolError.

Fixpoint kind (e : error) : ErrorKind :=
  match e with
  | NotConnected => NotConnectedError
  | SendFailed _ | ReadFailed _ | HidError _ => TransportError
  | InvalidPort _ | InvalidPortForStateQuery _ => ArgumentError
  | UnexpectedResponse _ _ | CommandFailed _ | UnexpectedStateResponse _ =>
      ProtocolError
  | GetStateFailed _ e => kind e
  end.

(** ** HID calls as a monad *)

(** A computation that returns an [A], panics, or makes one of the four
    [*hid.Device] calls the package uses and goes on with its results. *)
Inductive hid (A : Type) : Type :=
| Ret (a : A)
| Panic
| DevWrite (d : Device) (p : list byte)
    (k : Z * option hid_error -> hid A)
| DevRead (d : Device) (p : list byte)
    (k : list byte * Z * option hid_error -> hid A)
| DevClose (d : Device) (k : option hid_error -> hid A)
| DevGetSerialNbr (d : Device) (k : string * option hid_error -> hid A).

Arguments Ret {A} a.
Arguments Panic {A}.
Arguments DevWrite {A} d p k.
Arguments DevRead {A} d p k.
Arguments DevClose {A} d k.
Arguments DevGetSerialNbr {A} d k.

Fixpoint bind {A B : Type} (m : hid A) (f : A -> hid B) : hid B :=
  match m with
  | Ret a => f a
  | Panic => Panic
  | DevWrite d p k => DevWrite d p (fun r => bind (k r) f)
  | DevRead d p k => DevRead d p (fun r => bind (k r) f)
  | DevClose d k => DevClose d (fun r => bind (k r) f)
  | DevGetSerialNbr d k => DevGetSerialNbr d (fun r => bind (k r) f)
  end.

Declare Scope hid_scope.
Delimit Scope hid_scope with hid.
Bind Scope hid_scope with hid.

Notation "'let*' x ':=' m 'in' k" := (bind m (fun x => k))
  (at level 10, x pattern, m at level 100, k at level 200, only parsing)
  : hid_scope.

Local Open Scope hid_scope.

(** [d.Write(p)]: number of bytes written and error. *)
Definition Write (d : Device) (p : list byte) : hid (Z * option hid_error) :=
  DevWrite d p Ret.
(** [d.Read(p)]: the contents of [p] after the call, number of bytes read
    and error. *)
Definition Read (d : Device) (p : list byte)
  : hid (list byte * Z * option hid_error) :=
  DevRead d p Ret.
(** [d.Close()] *)
Definition DeviceClose (d : Device) : hid (option hid_error) :=
  DevClose d Ret.
(** [d.GetSerialNbr()] *)
Definition GetSerialNbr (d : Device) : hid (string * option hid_error) :=
  DevGetSerialNbr d Ret.

(** [make([]byte, n)]: [n] zero bytes. *)
Definition make (n : nat) : list byte := replicate n x00.

(** [s[i]] on a byte slice; out of range, Go panics. *)
Definition index (s : list byte) (i : nat) : hid byte :=
  match s !! i with
  | Some b => Ret b
  | None => Panic
  end.

(** ** The methods of [*YKUSH3] *)

(** [func (y *YKUSH3) Close() error]; the receiver is mutated, so the new
    value of [*y] is returned with the error. *)
Definition Close (y : YKUSH3) : hid (YKUSH3 * option error) :=
  match device y with
  | Some d =>
      let* err := DeviceClose d in
      Ret (mkYKUSH3 None (serial y), HidError <$> err)
  | None => Ret (y, None)
  end.

(** [func (y *YKUSH3) GetSerial() (string, error)] *)
Definition GetSerial (y : YKUSH3) : hid (string * option error) :=
  match device y with
  | None => Ret (EmptyString, Some NotConnected)
  | Some d =>
      let* (s, err) := GetSerialNbr d in
      Ret (s, HidError <$> err)
  end.

(** [func (y *YKUSH3) sendCommand(cmd, ctrl byte) ([]byte, error)];
    a nil slice is the empty list. *)
Definition sendCommand (y : YKUSH3) (cmd ctrl : byte)
  : hid (list byte * option error) :=
  match device y with
  | None => Ret ([], Some NotConnected)
  | Some d =>
      let cmdBuf := make ReportSize in
      let cmdBuf := <[0%nat := cmd]> cmdBuf in
      let cmdBuf := <[1%nat := ctrl]> cmdBuf in
      let* (_, err) := Write d cmdBuf in
      match err with
      | Some e => Ret ([], Some (SendFailed e))
      | None =>
          let respBuf := make ReportSize in
          let* (respBuf, _, err) := Read d respBuf in
          match err with
          | Some e => Ret ([], Some (ReadFailed e))
          | None => Ret (respBuf, None)
          end
      end
  end.

(** The [switch port] at the head of [PortUp]: the command byte, or [None]
    for the [default] branch. *)
Definition PortUp_cmd (port : Port) : option byte :=
  if port =? Port1 then Some x11
  else if port =? Port2 then Some x12
  else if port =? Port3 then Some x13
  else if port =? AllPorts then Some x1a
  else None.

(** [func (y *YKUSH3) PortUp(port Port) error].  Whichever side of the
    [||] decides, both response bytes are read: by the comparison or by the
    error message. *)
Definition PortUp (y : YKUSH3) (port : Port) : hid (option error) :=
  match PortUp_cmd port with
  | None => Ret (Some (InvalidPort port))
  | Some cmd =>
      let* (resp, err) := sendCommand y cmd cmd in
      match err with
      | Some e => Ret (Some e)
      | None =>
          let* r0 := index resp 0 in
          let* r1 := index resp 1 in
          if negb (Byte.eqb r0 x01) || negb (Byte.eqb r1 cmd)
          then Ret (Some (UnexpectedResponse r0 r1))
          else Ret None
      end
  end.

(** The [switch port] at the head of [PortDown]. *)
Definition PortDown_cmd (port : Port) : option byte :=
  if port =? Port1 then Some x01
  else if port =? Port2 then Some x02
  else if port =? Port3 then Some x03
  else if port =? AllPorts then Some x0a
  else None.

(** [func (y *YKUSH3) PortDown(port Port) error] *)
Definition PortDown (y : YKUSH3) (port : Port) : hid (option error) :=
  match PortDown_cmd port with
  | None => Ret (Some (InvalidPort port))
  | Some cmd =>
      let* (resp, err) := sendCommand y cmd cmd in
      match err with
      | Some e => Ret (Some e)
      | None =>
          let* r0 := index resp 0 in
          let* r1 := index resp 1 in
          if negb (Byte.eqb r0 x01) || negb (Byte.eqb r1 cmd)
          then Ret (Some (UnexpectedResponse r0 r1))
          else Ret None
      end
  end.

(** The [switch port] at the head of [GetPortState]. *)
Definition GetPortState_cmd (port : Port) : option byte :=
  if port =? Port1 then Some x21
  else if port =? Port2 then Some x22
  else if port =? Port3 then Some x23
  else None.

(** The [switch resp[1]] at the end of [GetPortState]. *)
Definition decode_state (r1 : byte) : PortState * option error :=
  match r1 with
  | x01 | x02 | x03 => (PortOff, None)
  | x11 | x12 | x13 => (PortOn, None)
  | _ => (PortOff, Some (UnexpectedStateResponse r1))
  end.

(** [func (y *YKUSH3) GetPortState(port Port) (PortState, error)] *)
Definition GetPortState (y : YKUSH3) (port : Port)
  : hid (PortState * option error) :=
  match GetPortState_cmd port with
  | None => Ret (PortOff, Some (InvalidPortForStateQuery port))
  | Some cmd =>
      let* (resp, err) := sendCommand y cmd cmd in
      match err with
      | Some e => Ret (PortOff, Some e)
      | None =>
          let* r0 := index resp 0 in
          if negb (Byte.eqb r0 x01)
          then Ret (PortOff, Some (CommandFailed r0))
          else
            let* r1 := index resp 1 in
            Ret (decode_state r1)
      end
  end.

(** [func (y *YKUSH3) SetPortState(port Port, state PortState) error] *)
Definition SetPortState (y : YKUSH3) (port : Port) (state : PortState)
  : hid (option error) :=
  if state then PortUp y port else PortDown y port.

(** [func (y *YKUSH3) AllPortsUp() error] *)
Definition AllPortsUp (y : YKUSH3) : hid (option error) :=
  PortUp y AllPorts.

(** [func (y *YKUSH3) AllPortsDown() error] *)
Definition AllPortsDown (y : YKUSH3) : hid (option error) :=
  PortDown y AllPorts.

(** The [for _, port := range ports] loop of [GetAllPortsState], with the
    map built so far; a nil map is [None].  [map[Port]PortState] is written
    with the types [Port] and [PortState] stand for. *)
Fixpoint GetAllPortsState_loop (y : YKUSH3) (ports : list Port)
    (states : gmap Z bool)
  : hid (option (gmap Z bool) * option error) :=
  match ports with
  | [] => Ret (Some states, None)
  | port :: ports =>
      let* (state, err) := GetPortState y port in
      match err with
      | Some e => Ret (None, Some (GetStateFailed port e))
      | None => GetAllPortsState_loop y ports (<[port := state]> states)
      end
  end.

(** [func (y *YKUSH3) GetAllPortsState() (map[Port]PortState, error)] *)
Definition GetAllPortsState (y : YKUSH3)
  : hid (option (gmap Z bool) * option error) :=
  let states : gmap Z bool := ∅ in
  let ports := [Port1; Port2; Port3] in
  GetAllPortsState_loop y ports states.

(** ** Auxiliary definitions for the statements *)

(** The report [sendCommand] builds. *)
Definition report (cmd ctrl : byte) : list byte :=
  cmd :: ctrl :: replicate 62 x00.

(** The reports a run of state queries over [ports] can write, in order:
    one per port that has a query command. *)
Definition query_reports (ports : list Port) : list (list byte) :=
  omap (fun port => (fun cmd => report cmd cmd) <$> GetPortState_cmd port)
       ports.

(** The check at the end of [PortUp] and [PortDown]. *)
Definition acknowledged (cmd r0 r1 : byte) : option error :=
  if negb (Byte.eqb r0 x01) || negb (Byte.eqb r1 cmd)
  then Some (UnexpectedResponse r0 r1)
  else None.

(** After the command byte is chosen, [PortUp] and [PortDown] are the same
    code. *)
Definition actuate (y : YKUSH3) (cmd : byte) : hid (option error) :=
  let* (resp, err) := sendCommand y cmd cmd in
  match err with
  | Some e => Ret (Some e)
  | None =>
      let* r0 := index resp 0 in
      let* r1 := index resp 1 in
      if negb (Byte.eqb r0 x01) || negb (Byte.eqb r1 cmd)
      then Ret (Some (UnexpectedResponse r0 r1))
      else Ret None
  end.

(** What [GetPortState] returns once a response came: the status check,
    then the [switch resp[1]]. *)
Definition decoded (r0 r1 : byte) : PortState * option error :=
  if negb (Byte.eqb r0 x01)
  then (PortOff, Some (CommandFailed r0))
  else decode_state r1.

(** A report whose control byte equals its command byte. *)
Definition echoes (p : list byte) : Prop :=
  exists cmd : byte, p = report cmd cmd.

(** ** Running a computation against a transport *)

(** What the HID library is assumed to do, over a state [S] of its own: each
    call answers from the current state and moves to a next one.  [hid_Read]
    answers with the bytes the device delivered; they overwrite the front of
    the caller's buffer (see [fill]). *)
Record Transport (S : Type) : Type := mkTransport {
  hid_Write : Device -> list byte -> S -> (Z * option hid_error) * S;
  hid_Read : Device -> nat -> S -> (list byte * Z * option hid_error) * S;
  hid_Close : Device -> S -> option hid_error * S;
  hid_GetSerialNbr : Device -> S -> (string * option hid_error) * S
}.

Arguments hid_Write {S} _ _ _ _.
Arguments hid_Read {S} _ _ _ _.
Arguments hid_Close {S} _ _ _.
Arguments hid_GetSerialNbr {S} _ _ _.

(** The buffer [p] after a read that delivered [data]: a slice keeps its
    length, bytes past the delivered ones keep their value, delivered bytes
    that do not fit are dropped. *)
Definition fill (p data : list byte) : list byte :=
  take (length p) (data ++ drop (length data) p).

(** One HID call, as it is recorded in a trace. *)
Inductive event : Type :=
| EvWrite (d : Device) (p : list byte)
| EvRead (d : Device) (p : list byte)
| EvClose (d : Device)
| EvGetSerialNbr (d : Device).

Inductive outcome (A : Type) : Type :=
| Returned (a : A)
| Panicked.

Arguments Returned {A} a.
Arguments Panicked {A}.

(** [run T m s]: the outcome of [m], the transport's final state and the HID
    calls made, first call first. *)
Fixpoint run {S A : Type} (T : Transport S) (m : hid A) (s : S)
  : outcome A * S * list event :=
  match m with
  | Ret a => (Returned a, s, [])
  | Panic => (Panicked, s, [])
  | DevWrite d p k =>
      let '(r, s1) := hid_Write T d p s in
      let '(o, s2, tr) := run T (k r) s1 in
      (o, s2, EvWrite d p :: tr)
  | DevRead d p k =>
      let '(data, n, err, s1) := hid_Read T d (length p) s in
      let '(o, s2, tr) := run T (k (fill p data, n, err)) s1 in
      (o, s2, EvRead d p :: tr)
  | DevClose d k =>
      let '(r, s1) := hid_Close T d s in
      let '(o, s2, tr) := run T (k r) s1 in
      (o, s2, EvClose d :: tr)
  | DevGetSerialNbr d k =>
      let '(r, s1) := hid_GetSerialNbr T d s in
      let '(o, s2, tr) := run T (k r) s1 in
      (o, s2, EvGetSerialNbr d :: tr)
  end.

(** The outcome and the HID calls of a run. *)
Definition result {S A : Type} (r : outcome A * S * list event) : outcome A :=
  r.1.1.
Definition trace {S A : Type} (r : outcome A * S * list event) : list event :=
  r.2.

(** The reports written and the buffers read into, in order. *)
Definition written (tr : list event) : list (list byte) :=
  omap (fun e => match e with EvWrite _ p => Some p | _ => None end) tr.
Definition reads (tr : list event) : list (list byte) :=
  omap (fun e => match e with EvRead _ p => Some p | _ => None end) tr.

(** One request/response cycle on an open device, spelled out on the
    transport's answers. *)
Definition exchange {S : Type} (T : Transport S) (d : Device)
    (cmd ctrl : byte) (s : S)
  : outcome (list byte * option error) * S * list event :=
  match hid_Write T d (report cmd ctrl) s with
  | ((_, Some e), s1) =>
      (Returned ([], Some (SendFailed e)), s1, [EvWrite d (report cmd ctrl)])
  | ((_, None), s1) =>
      match hid_Read T d ReportSize s1 with
      | ((_, _, Some e), s2) =>
          (Returned ([], Some (ReadFailed e)), s2,
           [EvWrite d (report cmd ctrl); EvRead d (make ReportSize)])
      | ((data, _, None), s2) =>
          (Returned (fill (make ReportSize) data, None), s2,
           [EvWrite d (report cmd ctrl); EvRead d (make ReportSize)])
      end
  end.

(** The call "receives a response": on state [s] the device accepts the
    report for [cmd] and then delivers data without error, which leaves
    [resp] in the read buffer and the transport in [s']. *)
Definition responds {S : Type} (T : Transport S) (d : Device) (cmd : byte)
    (s : S) (resp : list byte) (s' : S) : Prop :=
  exists (n m : Z) (data : list byte) (s1 : S),
    hid_Write T d (report cmd cmd) s = ((n, None), s1) /\
    hid_Read T d ReportSize s1 = ((data, m, None), s') /\
    resp = fill (make ReportSize) data.

(** The two HID calls of an exchange that went through. *)
Definition exchanged (d : Device) (cmd : byte) : list event :=
  [EvWrite d (report cmd cmd); EvRead d (make ReportSize)].

(** [T] with the byte counts of its writes and reads replaced: [f] maps the
    count a write reports, [g] the count a read reports.  Data, errors and
    next states are those of [T]. *)
Definition recount {S : Type} (f g : Z -> Z) (T : Transport S)
  : Transport S := {|
  hid_Write d p s :=
    let '((n, err), s1) := hid_Write T d p s in ((f n, err), s1);
  hid_Read d len s :=
    let '((data, n, err), s1) := hid_Read T d len s in ((data, g n, err), s1);
  hid_Close := hid_Close T;
  hid_GetSerialNbr := hid_GetSerialNbr T
|}.

(** ** A scripted transport

    A test double: the state is the list of answers still to be given.  A
    call that finds the answer of its own kind at the head gives it; any
    other call fails and leaves the script alone. *)
Module Script.

Inductive answer : Type :=
| OnWrite (n : Z) (err : option hid_error)
| OnRead (data : list byte) (n : Z) (err : option hid_error)
| OnClose (err : option hid_error)
| OnGetSerialNbr (s : string) (err : option hid_error).

Definition unexpected : hid_error := "unexpected call"%string.

Definition transport : Transport (list answer) := {|
  hid_Write _ _ s :=
    match s with
    | OnWrite n err :: s => ((n, err), s)
    | _ => ((-1, Some unexpected), s)
    end;
  hid_Read _ _ s :=
    match s with
    | OnRead data n err :: s => ((data, n, err), s)
    | _ => (([], -1, Some unexpected), s)
    end;
  hid_Close _ s :=
    match s with
    | OnClose err :: s => (err, s)
    | _ => (Some unexpected, s)
    end;
  hid_GetSerialNbr _ s :=
    match s with
    | OnGetSerialNbr ser err :: s => ((ser, err), s)
    | _ => ((EmptyString, Some unexpected), s)
    end
|}.

Definition io_error : hid_error := "i/o error"%string.

(** A device that accepts a whole report and answers with [data]. *)
Definition replies (data : list byte) : list answer :=
  [OnWrite 64 None; OnRead data (Z.of_nat (length data)) None].

(** A device that accepts a report and then fails the read. *)
Definition failing_read : list answer :=
  [OnWrite 64 None; OnRead [] (-1) (Some io_error)].

(** An open handle and a closed one. *)
Definition opened : YKUSH3 := mkYKUSH3 (Some 0%nat) EmptyString.
Definition closed : YKUSH3 := mkYKUSH3 None EmptyString.

End Script.

(** ** Opening a device, listing devices, printing

    The package-level calls of the HID library ([hid.Init], [hid.OpenFirst],
    [hid.Open], [hid.Enumerate]) are given a meaning by a [Library], over the
    same kind of state as a [Transport]; the functions below thread that
    state and record the library calls they make. *)

(** The errors [NewWithSerial] and [ListDevices] build. *)
Inductive open_error : Type :=
| InitFailed (e : hid_error)
    (* "failed to initialize HID library: %w" *)
| OpenFailed (e : hid_error)
    (* "failed to open YKUSH3 device: %w" *)
| EnumerateFailed (e : hid_error)
    (* "failed to enumerate devices: %w" *).

(** [hid.OpenFirst] and [hid.Open] answer with a device pointer (nil is
    [None]) and an error.  [hid_Enumerate] answers with the device infos the
    library hands to the callback, in the order it hands them, and the error
    [hid.Enumerate] returns in the end. *)
Record Library (S Info : Type) : Type := mkLibrary {
  hid_Init : S -> option hid_error * S;
  hid_OpenFirst : Z -> Z -> S -> (option Device * option hid_error) * S;
  hid_Open : Z -> Z -> string -> S -> (option Device * option hid_error) * S;
  hid_Enumerate : Z -> Z -> S -> (list Info * option hid_error) * S
}.

Arguments hid_Init {S Info} _ _.
Arguments hid_OpenFirst {S Info} _ _ _ _.
Arguments hid_Open {S Info} _ _ _ _ _.
Arguments hid_Enumerate {S Info} _ _ _ _.

(** One library call, as it is recorded. *)
Inductive lib_event : Type :=
| EvInit
| EvOpenFirst (vid pid : Z)
| EvOpen (vid pid : Z) (serial : string)
| EvEnumerate (vid pid : Z).

(** [func NewWithSerial(serial string)], which returns a [*YKUSH3] and an
    [error]; a nil [*YKUSH3] is [None]. *)
Definition NewWithSerial {S Info : Type} (L : Library S Info)
    (serial : string) (s : S)
  : (option YKUSH3 * option open_error) * S * list lib_event :=
  let '(err, s1) := hid_Init L s in
  match err with
  | Some e => ((None, Some (InitFailed e)), s1, [EvInit])
  | None =>
      let '((device, err), s2, ev) :=
        if String.eqb serial EmptyString
        then (hid_OpenFirst L VendorID ProductID s1,
              EvOpenFirst VendorID ProductID)
        else (hid_Open L VendorID ProductID serial s1,
              EvOpen VendorID ProductID serial) in
      match err with
      | Some e => ((None, Some (OpenFailed e)), s2, [EvInit; ev])
      | None => ((Some (mkYKUSH3 device serial), None), s2, [EvInit; ev])
      end
  end.

(** [func New()], with the same results. *)
Definition New {S Info : Type} (L : Library S Info) (s : S)
  : (option YKUSH3 * option open_error) * S * list lib_event :=
  NewWithSerial L EmptyString s.

(** [func ListDevices() ([]hid.DeviceInfo, error)].  The callback passed to
    [hid.Enumerate] appends each info to [devices] and returns nil; [devices]
    starts as the nil slice. *)
Definition ListDevices {S Info : Type} (L : Library S Info) (s : S)
  : (list Info * option open_error) * S * list lib_event :=
  let '(err, s1) := hid_Init L s in
  match err with
  | Some e => (([], Some (InitFailed e)), s1, [EvInit])
  | None =>
      let '((infos, err), s2) := hid_Enumerate L VendorID ProductID s1 in
      let devices : list Info :=
        foldl (fun devices info => devices ++ [info]) [] infos in
      match err with
      | Some e =>
          (([], Some (EnumerateFailed e)), s2,
           [EvInit; EvEnumerate VendorID ProductID])
      | None =>
          ((devices, None), s2, [EvInit; EvEnumerate VendorID ProductID])
      end
  end.

(** [func (p Port) String() string]; [%d] prints the integer in decimal,
    with a minus sign when negative. *)
Definition Port_String (p : Port) : string :=
  if p =? Port1 then "Port 1"%string
  else if p =? Port2 then "Port 2"%string
  else if p =? Port3 then "Port 3"%string
  else if p =? AllPorts then "All Ports"%string
  else ("Port " +:+ pretty p)%string.

(** [func (s PortState) String() string] *)
Definition PortState_String (s : PortState) : string :=
  if s then "ON"%string else "OFF"%string.

(** [Close] twice, as a caller would: the handle and both errors. *)
Definition Close_twice (y : YKUSH3)
  : hid (YKUSH3 * option error * option error) :=
  let* (y1, err1) := Close y in
  let* (y2, err2) := Close y1 in
  Ret (y2, err1, err2).

(** The open call [NewWithSerial] makes for [serial]. *)
Definition open_call (serial : string) : lib_event :=
  if String.eqb serial EmptyString
  then EvOpenFirst VendorID ProductID
  else EvOpen VendorID ProductID serial.

(** [%02x] on a byte: two lower-case hexadecimal digits. *)
Definition hex_digit (n : N) : ascii :=
  match n with
  | 0 => "0" | 1 => "1" | 2 => "2" | 3 => "3" | 4 => "4" | 5 => "5"
  | 6 => "6" | 7 => "7" | 8 => "8" | 9 => "9" | 10 => "a" | 11 => "b"
  | 12 => "c" | 13 => "d" | 14 => "e" | _ => "f"
  end%N%char.

Definition hex02 (b : byte) : string :=
  String (hex_digit (Byte.to_N b / 16))
         (String (hex_digit (Byte.to_N b mod 16)) EmptyString).

(** The text of an error, [err.Error()]: the format string of its site
    with its values; [%d] prints a port as a decimal integer and [%w] the
    text of the wrapped error. *)
Fixpoint Error (e : error) : string :=
  match e with
  | NotConnected => "device not connected"
  | SendFailed e => "failed to send command: " +:+ e
  | ReadFailed e => "failed to read response: " +:+ e
  | InvalidPort port => "invalid port: " +:+ pretty port
  | InvalidPortForStateQuery port =>
      "invalid port for state query: " +:+ pretty port
  | UnexpectedResponse status response =>
      "unexpected response: status=0x" +:+ hex02 status +:+
      ", response=0x" +:+ hex02 response
  | CommandFailed status => "command failed: status=0x" +:+ hex02 status
  | UnexpectedStateResponse response =>
      "unexpected state response: 0x" +:+ hex02 response
  | GetStateFailed port e =>
      "failed to get state for port " +:+ pretty port +:+ ": " +:+ Error e
  | HidError e => e
  end%string.

(** The errors the package builds from its own checks, with no error of
    the HID library inside. *)
Definition own_check (e : error) : Prop :=
  match e with
  | NotConnected | InvalidPort _ | InvalidPortForStateQuery _
  | UnexpectedResponse _ _ | CommandFailed _ | UnexpectedStateResponse _ =>
      True
  | SendFailed _ | ReadFailed _ | GetStateFailed _ _ | HidError _ => False
  end.

(** The byte a two-digit text stands for, by search. *)
Definition unhex02 (s : string) : option byte :=
  find (fun b => String.eqb (hex02 b) s)
       (omap Byte.of_N (N.of_nat <$> seq 0 256)).

(** Use, close, use again, close again, as a caller would: the four
    errors. *)
Definition use_after_Close (y : YKUSH3) (port : Port)
  : hid (option error * option error * option error * option error) :=
  let* err1 := PortUp y port in
  let* (y1, err2) := Close y in
  let* err3 := PortUp y1 port in
  let* (y2, err4) := Close y1 in
  Ret (err1, err2, err3, err4).

(** The device a HID call is made on. *)
Definition event_device (e : event) : Device :=
  match e with
  | EvWrite d _ | EvRead d _ | EvClose d | EvGetSerialNbr d => d
  end.

(** A HID call that is a write or a read on device [d]. *)
Definition exchange_on (d : Device) (e : event) : Prop :=
  match e with
  | EvWrite d' _ | EvRead d' _ => d' = d
  | EvClose _ | EvGetSerialNbr _ => False
  end.

(** The [Close] calls among the HID calls. *)
Definition closes (tr : list event) : list Device :=
  omap (fun e => match e with EvClose d => Some d | _ => None end) tr.

(** A scripted library, after the scripted transport: the state is the list
    of answers still to be given. *)
Module ScriptLib.

Inductive answer (Info : Type) : Type :=
| OnInit (err : option hid_error)
| OnOpen (d : option Device) (err : option hid_error)
| OnEnumerate (infos : list Info) (err : option hid_error).

Arguments OnInit {Info} err.
Arguments OnOpen {Info} d err.
Arguments OnEnumerate {Info} infos err.

Definition library (Info : Type) : Library (list (answer Info)) Info := {|
  hid_Init s :=
    match s with
    | OnInit err :: s => (err, s)
    | _ => (Some Script.unexpected, s)
    end;
  hid_OpenFirst _ _ s :=
    match s with
    | OnOpen d err :: s => ((d, err), s)
    | _ => ((None, Some Script.unexpected), s)
    end;
  hid_Open _ _ _ s :=
    match s with
    | OnOpen d err :: s => ((d, err), s)
    | _ => ((None, Some Script.unexpected), s)
    end;
  hid_Enumerate _ _ s :=
    match s with
    | OnEnumerate infos err :: s => ((infos, err), s)
    | _ => (([], Some Script.unexpected), s)
    end
|}.

End ScriptLib.

(** Case analysis on the [switch port] of a method. *)
Ltac switch_port port :=
  repeat match goal with
         | |- context [port =? ?c] =>
             destruct (Z.eqb_spec port c) as [->|?]; simpl
         end.

(** ** Basic facts *)

Lemma sendCommand_report (cmd ctrl : byte) :
  <[1%nat := ctrl]> (<[0%nat := cmd]> (make ReportSize)) = report cmd ctrl.
Proof. reflexivity. Qed.

Lemma report_length (cmd ctrl : byte) : length (report cmd ctrl) = 64%nat.
Proof. reflexivity. Qed.

Lemma fill_length (p data : list byte) : length (fill p data) = length p.
Proof.
  unfold fill. rewrite length_take, length_app, length_drop. lia.
Qed.

Lemma fill_lookup_data (p data : list byte) (i : nat) :
  (i < length data)%nat -> (i < length p)%nat ->
  fill p data !! i = data !! i.
Proof.
  intros Hd Hp. unfold fill.
  rewrite lookup_take_lt by lia. now rewrite lookup_app_l by lia.
Qed.

Lemma fill_lookup_rest (p data : list byte) (i : nat) :
  (length data <= i)%nat -> fill p data !! i = p !! i.
Proof.
  intros Hd. unfold fill.
  destruct (decide (i < length p)%nat) as [Hp|Hp].
  - rewrite lookup_take_lt by lia. rewrite lookup_app_r by lia.
    rewrite lookup_drop. f_equal. lia.
  - rewrite lookup_take_ge by lia. symmetry. apply lookup_ge_None. lia.
Qed.

Lemma kind_wrapped (port : Port) (e : error) :
  kind (GetStateFailed port e) = kind e.
Proof. reflexivity. Qed.

Lemma eqb_byte_true (a b : byte) : Byte.eqb a b = true <-> a = b.
Proof. split; [apply byte_dec_bl | apply byte_dec_lb]. Qed.

Lemma eqb_byte_false (a b : byte) : Byte.eqb a b = false <-> a <> b.
Proof.
  split; [apply eqb_false|]. intros H.
  destruct (Byte.eqb a b) eqn:E; [|reflexivity].
  now apply byte_dec_bl in E.
Qed.

(** The command tables, read as relations on the valid ports. *)
Lemma PortUp_cmd_Some (port : Port) (cmd : byte) :
  PortUp_cmd port = Some cmd <->
  (port = Port1 /\ cmd = x11) \/ (port = Port2 /\ cmd = x12) \/
  (port = Port3 /\ cmd = x13) \/ (port = AllPorts /\ cmd = x1a).
Proof.
  unfold PortUp_cmd, Port1, Port2, Port3, AllPorts.
  split.
  - switch_port port; intros H; inversion H; subst; auto 10.
  - intros [[-> ->]|[[-> ->]|[[-> ->]|[-> ->]]]]; reflexivity.
Qed.

Lemma PortDown_cmd_Some (port : Port) (cmd : byte) :
  PortDown_cmd port = Some cmd <->
  (port = Port1 /\ cmd = x01) \/ (port = Port2 /\ cmd = x02) \/
  (port = Port3 /\ cmd = x03) \/ (port = AllPorts /\ cmd = x0a).
Proof.
  unfold PortDown_cmd, Port1, Port2, Port3, AllPorts.
  split.
  - switch_port port; intros H; inversion H; subst; auto 10.
  - intros [[-> ->]|[[-> ->]|[[-> ->]|[-> ->]]]]; reflexivity.
Qed.

Lemma GetPortState_cmd_Some (port : Port) (cmd : byte) :
  GetPortState_cmd port = Some cmd <->
  (port = Port1 /\ cmd = x21) \/ (port = Port2 /\ cmd = x22) \/
  (port = Port3 /\ cmd = x23).
Proof.
  unfold GetPortState_cmd, Port1, Port2, Port3.
  split.
  - switch_port port; intros H; inversion H; subst; auto 10.
  - intros [[-> ->]|[[-> ->]|[-> ->]]]; reflexivity.
Qed.

Lemma PortUp_cmd_None (port : Port) :
  PortUp_cmd port = None <->
  port <> Port1 /\ port <> Port2 /\ port <> Port3 /\ port <> AllPorts.
Proof.
  unfold PortUp_cmd, Port1, Port2, Port3, AllPorts.
  switch_port port; split; intros H; try discriminate; try lia; auto.
Qed.

Lemma PortDown_cmd_None (port : Port) :
  PortDown_cmd port = None <->
  port <> Port1 /\ port <> Port2 /\ port <> Port3 /\ port <> AllPorts.
Proof.
  unfold PortDown_cmd, Port1, Port2, Port3, AllPorts.
  switch_port port; split; intros H; try discriminate; try lia; auto.
Qed.

Lemma GetPortState_cmd_None (port : Port) :
  GetPortState_cmd port = None <->
  port <> Port1 /\ port <> Port2 /\ port <> Port3.
Proof.
  unfold GetPortState_cmd, Port1, Port2, Port3.
  switch_port port; split; intros H; try discriminate; try lia; auto.
Qed.

(** The state decoder, case by case. *)
Lemma decode_state_off (r1 : byte) :
  r1 = x01 \/ r1 = x02 \/ r1 = x03 -> decode_state r1 = (PortOff, None).
Proof. intros [->|[->| ->]]; reflexivity. Qed.

Lemma decode_state_on (r1 : byte) :
  r1 = x11 \/ r1 = x12 \/ r1 = x13 -> decode_state r1 = (PortOn, None).
Proof. intros [->|[->| ->]]; reflexivity. Qed.

Lemma decode_state_other (r1 : byte) :
  r1 <> x01 -> r1 <> x02 -> r1 <> x03 ->
  r1 <> x11 -> r1 <> x12 -> r1 <> x13 ->
  decode_state r1 = (PortOff, Some (UnexpectedStateResponse r1)).
Proof. intros; destruct r1; try reflexivity; congruence. Qed.

Lemma decode_state_error (r1 : byte) (st : PortState) (e : error) :
  decode_state r1 = (st, Some e) -> st = PortOff.
Proof. destruct r1; simpl; congruence. Qed.

(** ** What the methods do on any transport *)

Section WithTransport.

Context {S : Type} (T : Transport S).

Lemma run_bind {A B : Type} (m : hid A) (f : A -> hid B) (s : S) :
  run T (bind m f) s =
  match run T m s with
  | (Returned a, s1, tr1) =>
      let '(o, s2, tr2) := run T (f a) s1 in (o, s2, tr1 ++ tr2)
  | (Panicked, s1, tr1) => (Panicked, s1, tr1)
  end.
Proof.
  revert s. induction m as [a| |d p k IH|d p k IH|d k IH|d k IH]; intros s;
    simpl.
  - now destruct (run T (f a) s) as [[o s2] tr2].
  - reflexivity.
  - destruct (hid_Write T d p s) as [r s1]. rewrite IH.
    destruct (run T (k r) s1) as [[[a|] s2] tr]; [|reflexivity].
    now destruct (run T (f a) s2) as [[o s3] tr2].
  - destruct (hid_Read T d (length p) s) as [[[data n] err] s1]. rewrite IH.
    destruct (run T (k (fill p data, n, err)) s1) as [[[a|] s2] tr];
      [|reflexivity].
    now destruct (run T (f a) s2) as [[o s3] tr2].
  - destruct (hid_Close T d s) as [r s1]. rewrite IH.
    destruct (run T (k r) s1) as [[[a|] s2] tr]; [|reflexivity].
    now destruct (run T (f a) s2) as [[o s3] tr2].
  - destruct (hid_GetSerialNbr T d s) as [r s1]. rewrite IH.
    destruct (run T (k r) s1) as [[[a|] s2] tr]; [|reflexivity].
    now destruct (run T (f a) s2) as [[o s3] tr2].
Qed.

Lemma run_sendCommand_open (y : YKUSH3) (d : Device) (cmd ctrl : byte)
    (s : S) :
  device y = Some d ->
  run T (sendCommand y cmd ctrl) s = exchange T d cmd ctrl s.
Proof.
  intros Hd. unfold sendCommand, exchange. rewrite Hd.
  cbn [bind Write Read run]. rewrite sendCommand_report.
  destruct (hid_Write T d (report cmd ctrl) s) as [[n [e|]] s1];
    [reflexivity|].
  cbn [bind run]. change (length (make ReportSize)) with ReportSize.
  now destruct (hid_Read T d ReportSize s1) as [[[data m] [e|]] s2].
Qed.

Lemma run_sendCommand_closed (y : YKUSH3) (cmd ctrl : byte) (s : S) :
  device y = None ->
  run T (sendCommand y cmd ctrl) s = (Returned ([], Some NotConnected), s, []).
Proof. intros Hd. unfold sendCommand. now rewrite Hd. Qed.

Lemma responds_sendCommand (y : YKUSH3) (d : Device) (cmd : byte) (s : S)
    (resp : list byte) (s' : S) :
  device y = Some d -> responds T d cmd s resp s' ->
  run T (sendCommand y cmd cmd) s =
  (Returned (resp, None), s', exchanged d cmd).
Proof.
  intros Hd (n & m & data & s1 & Hw & Hr & ->).
  rewrite (run_sendCommand_open y d) by assumption.
  unfold exchange. now rewrite Hw, Hr.
Qed.

Lemma responds_length (d : Device) (cmd : byte) (s : S) (resp : list byte)
    (s' : S) :
  responds T d cmd s resp s' -> length resp = ReportSize.
Proof.
  intros (n & m & data & s1 & _ & _ & ->). now rewrite fill_length.
Qed.

Lemma responds_bytes (d : Device) (cmd : byte) (s : S) (resp : list byte)
    (s' : S) :
  responds T d cmd s resp s' ->
  exists (r0 r1 : byte), resp !! 0%nat = Some r0 /\ resp !! 1%nat = Some r1.
Proof.
  intros H. apply responds_length in H.
  destruct resp as [|r0 [|r1 resp]]; try discriminate. now exists r0, r1.
Qed.

(** The outcome of an exchange is one of three; it never panics. *)
Lemma exchange_cases (d : Device) (cmd ctrl : byte) (s : S) :
  (exists e s1, exchange T d cmd ctrl s =
     (Returned ([], Some (SendFailed e)), s1, [EvWrite d (report cmd ctrl)]))
  \/ (exists e s2, exchange T d cmd ctrl s =
     (Returned ([], Some (ReadFailed e)), s2,
      [EvWrite d (report cmd ctrl); EvRead d (make ReportSize)]))
  \/ (exists resp s2, length resp = ReportSize /\ exchange T d cmd ctrl s =
     (Returned (resp, None), s2,
      [EvWrite d (report cmd ctrl); EvRead d (make ReportSize)])).
Proof.
  unfold exchange.
  destruct (hid_Write T d (report cmd ctrl) s) as [[n [e|]] s1].
  - left. now exists e, s1.
  - destruct (hid_Read T d ReportSize s1) as [[[data m] [e|]] s2].
    + right; left. now exists e, s2.
    + right; right. exists (fill (make ReportSize) data), s2.
      split; [apply fill_length | reflexivity].
Qed.


Lemma exchange_written (d : Device) (cmd ctrl : byte) (s : S) :
  written (trace (exchange T d cmd ctrl s)) = [report cmd ctrl].
Proof.
  destruct (exchange_cases d cmd ctrl s)
    as [(e & s1 & ->)|[(e & s1 & ->)|(resp & s1 & _ & ->)]]; reflexivity.
Qed.

Lemma acknowledged_None (cmd r0 r1 : byte) :
  acknowledged cmd r0 r1 = None <-> r0 = x01 /\ r1 = cmd.
Proof.
  unfold acknowledged.
  destruct (Byte.eqb r0 x01) eqn:E0, (Byte.eqb r1 cmd) eqn:E1; simpl;
    rewrite ?eqb_byte_true, ?eqb_byte_false in *; split;
    try tauto; try discriminate.
Qed.

Lemma acknowledged_Some (cmd r0 r1 : byte) :
  ~ (r0 = x01 /\ r1 = cmd) ->
  acknowledged cmd r0 r1 = Some (UnexpectedResponse r0 r1).
Proof.
  intros H. unfold acknowledged.
  destruct (negb (Byte.eqb r0 x01) || negb (Byte.eqb r1 cmd)) eqn:E;
    [reflexivity|].
  exfalso. apply H. now apply (acknowledged_None cmd); unfold acknowledged;
    rewrite E.
Qed.

Lemma PortUp_actuate (y : YKUSH3) (port : Port) (cmd : byte) :
  PortUp_cmd port = Some cmd -> PortUp y port = actuate y cmd.
Proof. intros H. unfold PortUp. now rewrite H. Qed.

Lemma PortDown_actuate (y : YKUSH3) (port : Port) (cmd : byte) :
  PortDown_cmd port = Some cmd -> PortDown y port = actuate y cmd.
Proof. intros H. unfold PortDown. now rewrite H. Qed.

Lemma run_actuate_open (y : YKUSH3) (d : Device) (cmd : byte) (s : S) :
  device y = Some d ->
  (exists e s1, run T (actuate y cmd) s =
     (Returned (Some (SendFailed e)), s1, [EvWrite d (report cmd cmd)]))
  \/ (exists e s1, run T (actuate y cmd) s =
     (Returned (Some (ReadFailed e)), s1, exchanged d cmd))
  \/ (exists resp r0 r1 s1,
        responds T d cmd s resp s1 /\
        resp !! 0%nat = Some r0 /\ resp !! 1%nat = Some r1 /\
        run T (actuate y cmd) s =
        (Returned (acknowledged cmd r0 r1), s1, exchanged d cmd)).
Proof.
  intros Hd. unfold actuate. rewrite run_bind.
  rewrite (run_sendCommand_open y d) by assumption. unfold exchange.
  destruct (hid_Write T d (report cmd cmd) s) as [[n [e|]] s1] eqn:Hw.
  { left. now exists e, s1. }
  destruct (hid_Read T d ReportSize s1) as [[[data m] [e|]] s2] eqn:Hr.
  { right; left. now exists e, s2. }
  right; right.
  assert (Hresp : responds T d cmd s (fill (make ReportSize) data) s2)
    by now exists n, m, data, s1.
  destruct (responds_bytes _ _ _ _ _ Hresp) as (r0 & r1 & H0 & H1).
  exists (fill (make ReportSize) data), r0, r1, s2.
  repeat split; try assumption.
  cbn [run]. unfold index. rewrite H0, H1. cbn [bind run].
  unfold acknowledged.
  now destruct (negb (Byte.eqb r0 x01) || negb (Byte.eqb r1 cmd)).
Qed.

Lemma run_actuate_responds (y : YKUSH3) (d : Device) (cmd : byte) (s s' : S)
    (resp : list byte) (r0 r1 : byte) :
  device y = Some d -> responds T d cmd s resp s' ->
  resp !! 0%nat = Some r0 -> resp !! 1%nat = Some r1 ->
  run T (actuate y cmd) s =
  (Returned (acknowledged cmd r0 r1), s', exchanged d cmd).
Proof.
  intros Hd Hresp H0 H1. unfold actuate. rewrite run_bind.
  rewrite (responds_sendCommand y d cmd s resp s') by assumption.
  cbn [run]. unfold index. rewrite H0, H1. cbn [bind run].
  unfold acknowledged.
  now destruct (negb (Byte.eqb r0 x01) || negb (Byte.eqb r1 cmd)).
Qed.

Lemma run_actuate_closed (y : YKUSH3) (cmd : byte) (s : S) :
  device y = None ->
  run T (actuate y cmd) s = (Returned (Some NotConnected), s, []).
Proof.
  intros Hd. unfold actuate. rewrite run_bind.
  now rewrite run_sendCommand_closed.
Qed.

Lemma run_GetPortState_open (y : YKUSH3) (d : Device) (port : Port)
    (cmd : byte) (s : S) :
  device y = Some d -> GetPortState_cmd port = Some cmd ->
  (exists e s1, run T (GetPortState y port) s =
     (Returned (PortOff, Some (SendFailed e)), s1,
      [EvWrite d (report cmd cmd)]))
  \/ (exists e s1, run T (GetPortState y port) s =
     (Returned (PortOff, Some (ReadFailed e)), s1, exchanged d cmd))
  \/ (exists resp r0 r1 s1,
        responds T d cmd s resp s1 /\
        resp !! 0%nat = Some r0 /\ resp !! 1%nat = Some r1 /\
        run T (GetPortState y port) s =
        (Returned (decoded r0 r1), s1, exchanged d cmd)).
Proof.
  intros Hd Hc. unfold GetPortState. rewrite Hc, run_bind.
  rewrite (run_sendCommand_open y d) by assumption. unfold exchange.
  destruct (hid_Write T d (report cmd cmd) s) as [[n [e|]] s1] eqn:Hw.
  { left. now exists e, s1. }
  destruct (hid_Read T d ReportSize s1) as [[[data m] [e|]] s2] eqn:Hr.
  { right; left. now exists e, s2. }
  right; right.
  assert (Hresp : responds T d cmd s (fill (make ReportSize) data) s2)
    by now exists n, m, data, s1.
  destruct (responds_bytes _ _ _ _ _ Hresp) as (r0 & r1 & H0 & H1).
  exists (fill (make ReportSize) data), r0, r1, s2.
  repeat split; try assumption.
  cbn [run]. unfold index, decoded. rewrite H0. cbn [bind].
  destruct (negb (Byte.eqb r0 x01)); [reflexivity|].
  now rewrite H1.
Qed.

Lemma run_GetPortState_responds (y : YKUSH3) (d : Device) (port : Port)
    (cmd : byte) (s s' : S) (resp : list byte) (r0 r1 : byte) :
  device y = Some d -> GetPortState_cmd port = Some cmd ->
  responds T d cmd s resp s' ->
  resp !! 0%nat = Some r0 -> resp !! 1%nat = Some r1 ->
  run T (GetPortState y port) s =
  (Returned (decoded r0 r1), s', exchanged d cmd).
Proof.
  intros Hd Hc Hresp H0 H1. unfold GetPortState. rewrite Hc, run_bind.
  rewrite (responds_sendCommand y d cmd s resp s') by assumption.
  cbn [run]. unfold index, decoded. rewrite H0. cbn [bind].
  destruct (negb (Byte.eqb r0 x01)); [reflexivity|].
  now rewrite H1.
Qed.

Lemma run_GetPortState_closed (y : YKUSH3) (port : Port) (cmd : byte)
    (s : S) :
  device y = None -> GetPortState_cmd port = Some cmd ->
  run T (GetPortState y port) s =
  (Returned (PortOff, Some NotConnected), s, []).
Proof.
  intros Hd Hc. unfold GetPortState. rewrite Hc, run_bind.
  now rewrite run_sendCommand_closed.
Qed.

Lemma run_GetPortState_invalid (y : YKUSH3) (port : Port) (s : S) :
  GetPortState_cmd port = None ->
  run T (GetPortState y port) s =
  (Returned (PortOff, Some (InvalidPortForStateQuery port)), s, []).
Proof. intros Hc. unfold GetPortState. now rewrite Hc. Qed.

(** ** Command encoding *)

Lemma PortUp_written (y : YKUSH3) (d : Device) (port : Port) (cmd : byte)
    (s : S) :
  device y = Some d -> PortUp_cmd port = Some cmd ->
  written (trace (run T (PortUp y port) s)) = [report cmd cmd].
Proof.
  intros Hd Hc. rewrite (PortUp_actuate y port cmd Hc).
  destruct (run_actuate_open y d cmd s Hd)
    as [(e & s1 & ->)|[(e & s1 & ->)|(resp & r0 & r1 & s1 & _ & _ & _ & ->)]];
    reflexivity.
Qed.

Lemma PortDown_written (y : YKUSH3) (d : Device) (port : Port) (cmd : byte)
    (s : S) :
  device y = Some d -> PortDown_cmd port = Some cmd ->
  written (trace (run T (PortDown y port) s)) = [report cmd cmd].
Proof.
  intros Hd Hc. rewrite (PortDown_actuate y port cmd Hc).
  destruct (run_actuate_open y d cmd s Hd)
    as [(e & s1 & ->)|[(e & s1 & ->)|(resp & r0 & r1 & s1 & _ & _ & _ & ->)]];
    reflexivity.
Qed.

Lemma GetPortState_written (y : YKUSH3) (d : Device) (port : Port)
    (cmd : byte) (s : S) :
  device y = Some d -> GetPortState_cmd port = Some cmd ->
  written (trace (run T (GetPortState y port) s)) = [report cmd cmd].
Proof.
  intros Hd Hc.
  destruct (run_GetPortState_open y d port cmd s Hd Hc)
    as [(e & s1 & ->)|[(e & s1 & ->)|(resp & r0 & r1 & s1 & _ & _ & _ & ->)]];
    reflexivity.
Qed.

(** C1. The command encoder reproduces the fixed table: the [switch] of
    Raise ([PortUp]) gives 0x11, 0x12, 0x13, 0x1A for Port1, Port2, Port3,
    AllPorts, the one of Lower ([PortDown]) gives 0x01, 0x02, 0x03, 0x0A, and
    the one of QueryState ([GetPortState]) gives 0x21, 0x22, 0x23 for Port1,
    Port2, Port3; and on an open handle that byte is what the method puts on
    the wire, as bytes 0 and 1 of the single report it writes. *)
Theorem command_encoder_table :
  (PortUp_cmd Port1 = Some x11 /\ PortUp_cmd Port2 = Some x12 /\
   PortUp_cmd Port3 = Some x13 /\ PortUp_cmd AllPorts = Some x1a) /\
  (PortDown_cmd Port1 = Some x01 /\ PortDown_cmd Port2 = Some x02 /\
   PortDown_cmd Port3 = Some x03 /\ PortDown_cmd AllPorts = Some x0a) /\
  (GetPortState_cmd Port1 = Some x21 /\ GetPortState_cmd Port2 = Some x22 /\
   GetPortState_cmd Port3 = Some x23) /\
  forall (d : Device) (ser : string) (s : S),
    let y := mkYKUSH3 (Some d) ser in
    let sent (m : hid (option error)) := written (trace (run T m s)) in
    let asked (m : hid (PortState * option error)) :=
      written (trace (run T m s)) in
    (sent (PortUp y Port1) = [x11 :: x11 :: replicate 62 x00] /\
     sent (PortUp y Port2) = [x12 :: x12 :: replicate 62 x00] /\
     sent (PortUp y Port3) = [x13 :: x13 :: replicate 62 x00] /\
     sent (PortUp y AllPorts) = [x1a :: x1a :: replicate 62 x00]) /\
    (sent (PortDown y Port1) = [x01 :: x01 :: replicate 62 x00] /\
     sent (PortDown y Port2) = [x02 :: x02 :: replicate 62 x00] /\
     sent (PortDown y Port3) = [x03 :: x03 :: replicate 62 x00] /\
     sent (PortDown y AllPorts) = [x0a :: x0a :: replicate 62 x00]) /\
    (asked (GetPortState y Port1) = [x21 :: x21 :: replicate 62 x00] /\
     asked (GetPortState y Port2) = [x22 :: x22 :: replicate 62 x00] /\
     asked (GetPortState y Port3) = [x23 :: x23 :: replicate 62 x00]).
Proof.
  repeat split;
    solve [ reflexivity
          | eapply PortUp_written; reflexivity
          | eapply PortDown_written; reflexivity
          | eapply GetPortState_written; reflexivity ].
Qed.

(** ** Response validation and state decoding *)

(** C2. A state query on a valid port that receives a response: when
    response byte 0 is not 0x01 the call fails with the command-failed
    error, a ProtocolError; otherwise byte 1 equal to 0x01, 0x02 or 0x03
    gives PortOff, byte 1 equal to 0x11, 0x12 or 0x13 gives PortOn, and any
    other byte 1 fails with the unexpected-state error, a ProtocolError. *)
Theorem GetPortState_decodes_response (y : YKUSH3) (d : Device)
    (port : Port) (cmd : byte) (s s' : S) (resp : list byte)
    (r0 r1 : byte) :
  device y = Some d ->
  GetPortState_cmd port = Some cmd ->
  responds T d cmd s resp s' ->
  resp !! 0%nat = Some r0 -> resp !! 1%nat = Some r1 ->
  (r0 <> x01 ->
     run T (GetPortState y port) s =
     (Returned (PortOff, Some (CommandFailed r0)), s', exchanged d cmd) /\
     kind (CommandFailed r0) = ProtocolError) /\
  (r0 = x01 -> r1 = x01 \/ r1 = x02 \/ r1 = x03 ->
     run T (GetPortState y port) s =
     (Returned (PortOff, None), s', exchanged d cmd)) /\
  (r0 = x01 -> r1 = x11 \/ r1 = x12 \/ r1 = x13 ->
     run T (GetPortState y port) s =
     (Returned (PortOn, None), s', exchanged d cmd)) /\
  (r0 = x01 ->
     r1 <> x01 -> r1 <> x02 -> r1 <> x03 ->
     r1 <> x11 -> r1 <> x12 -> r1 <> x13 ->
     run T (GetPortState y port) s =
     (Returned (PortOff, Some (UnexpectedStateResponse r1)), s',
      exchanged d cmd) /\
     kind (UnexpectedStateResponse r1) = ProtocolError).
Proof.
  intros Hd Hc Hresp H0 H1.
  rewrite (run_GetPortState_responds y d port cmd s s' resp r0 r1)
    by assumption.
  unfold decoded. split; [|split; [|split]].
  - intros Hne. apply eqb_byte_false in Hne. now rewrite Hne.
  - intros -> Hoff. simpl. now rewrite decode_state_off.
  - intros -> Hon. simpl. now rewrite decode_state_on.
  - intros -> ? ? ? ? ? ?. simpl. now rewrite decode_state_other.
Qed.

(** C3, as amended. A query of Port1 whose response has byte 0 = 0x01:
    with byte 1 = 0x21 (the query opcode, which is not a state code) it
    fails with the unexpected-state error, a ProtocolError; with byte 1 =
    0x01 it returns PortOff; with byte 1 = 0x11 it returns PortOn. *)
Theorem GetPortState_Port1_state_codes (y : YKUSH3) (d : Device)
    (s s' : S) (resp : list byte) :
  device y = Some d ->
  responds T d x21 s resp s' ->
  resp !! 0%nat = Some x01 ->
  (resp !! 1%nat = Some x21 ->
     run T (GetPortState y Port1) s =
     (Returned (PortOff, Some (UnexpectedStateResponse x21)), s',
      exchanged d x21) /\
     kind (UnexpectedStateResponse x21) = ProtocolError) /\
  (resp !! 1%nat = Some x01 ->
     run T (GetPortState y Port1) s =
     (Returned (PortOff, None), s', exchanged d x21)) /\
  (resp !! 1%nat = Some x11 ->
     run T (GetPortState y Port1) s =
     (Returned (PortOn, None), s', exchanged d x21)).
Proof.
  intros Hd Hresp H0.
  split; [|split]; intros H1;
    now erewrite (run_GetPortState_responds y d Port1 x21 s s' resp x01)
      by (eassumption || reflexivity).
Qed.

(** C4. A Raise ([PortUp]) or Lower ([PortDown]) call that receives a
    response returns no error exactly when response byte 0 is 0x01 and
    response byte 1 is the command byte that was sent; otherwise it returns
    the unexpected-response error, a ProtocolError that carries both bytes
    as observed. *)
Theorem actuation_checks_echo (y : YKUSH3) (d : Device) (port : Port)
    (cmd : byte) (s s' : S) (resp : list byte) (r0 r1 : byte) :
  device y = Some d ->
  responds T d cmd s resp s' ->
  resp !! 0%nat = Some r0 -> resp !! 1%nat = Some r1 ->
  (PortUp_cmd port = Some cmd ->
     written (trace (run T (PortUp y port) s)) = [report cmd cmd] /\
     (run T (PortUp y port) s = (Returned None, s', exchanged d cmd) <->
      r0 = x01 /\ r1 = cmd) /\
     (~ (r0 = x01 /\ r1 = cmd) ->
      run T (PortUp y port) s =
      (Returned (Some (UnexpectedResponse r0 r1)), s', exchanged d cmd))) /\
  (PortDown_cmd port = Some cmd ->
     written (trace (run T (PortDown y port) s)) = [report cmd cmd] /\
     (run T (PortDown y port) s = (Returned None, s', exchanged d cmd) <->
      r0 = x01 /\ r1 = cmd) /\
     (~ (r0 = x01 /\ r1 = cmd) ->
      run T (PortDown y port) s =
      (Returned (Some (UnexpectedResponse r0 r1)), s', exchanged d cmd))) /\
  kind (UnexpectedResponse r0 r1) = ProtocolError.
Proof.
  intros Hd Hresp H0 H1.
  pose proof (run_actuate_responds y d cmd s s' resp r0 r1 Hd Hresp H0 H1)
    as Hrun.
  assert (Hiff : (Returned (acknowledged cmd r0 r1), s', exchanged d cmd) =
                 (Returned None, s', exchanged d cmd) <->
                 r0 = x01 /\ r1 = cmd).
  { rewrite <- acknowledged_None. split; [|intros ->; reflexivity].
    intros [= E]. exact E. }
  split; [|split]; [intros Hc|intros Hc|reflexivity].
  - rewrite (PortUp_actuate y port cmd Hc), Hrun.
    split; [reflexivity|]. split; [exact Hiff|].
    intros Hne. now rewrite acknowledged_Some.
  - rewrite (PortDown_actuate y port cmd Hc), Hrun.
    split; [reflexivity|]. split; [exact Hiff|].
    intros Hne. now rewrite acknowledged_Some.
Qed.

(** ** The bulk query *)

Lemma written_app (tr1 tr2 : list event) :
  written (tr1 ++ tr2) = written tr1 ++ written tr2.
Proof. apply omap_app. Qed.

Lemma query_reports_cons (port : Port) (ports : list Port) :
  query_reports (port :: ports) = query_reports [port] ++ query_reports ports.
Proof.
  unfold query_reports. simpl. now destruct (GetPortState_cmd port).
Qed.

(** A state query always returns; what it wrote is its own query report or
    nothing, the report whenever it succeeded; and a failed query returns
    PortOff with its error. *)
Lemma GetPortState_outcome (y : YKUSH3) (port : Port) (s : S) :
  exists (st : PortState) (err : option error) (s1 : S) (tr : list event),
    run T (GetPortState y port) s = (Returned (st, err), s1, tr) /\
    written tr `prefix_of` query_reports [port] /\
    (err = None -> written tr = query_reports [port]) /\
    (err <> None -> st = PortOff).
Proof.
  unfold query_reports. simpl.
  destruct (GetPortState_cmd port) as [cmd|] eqn:Hc; simpl.
  2:{ rewrite run_GetPortState_invalid by assumption.
      eexists _, _, _, _. split; [reflexivity|]. repeat split; try done. }
  destruct (device y) as [d|] eqn:Hd.
  2:{ rewrite (run_GetPortState_closed y port cmd) by assumption.
      eexists _, _, _, _. split; [reflexivity|].
      repeat split; try done. apply prefix_nil. }
  destruct (run_GetPortState_open y d port cmd s Hd Hc)
    as [(e & s1 & ->)|[(e & s1 & ->)|(resp & r0 & r1 & s1 & _ & _ & _ & ->)]].
  1, 2: eexists _, _, _, _; (split; [reflexivity|]); repeat split; done.
  destruct (decoded r0 r1) as [st err] eqn:E.
  exists st, err, s1, (exchanged d cmd). split; [reflexivity|].
  repeat split; try done.
  intros Herr. unfold decoded in E.
  destruct (negb (Byte.eqb r0 x01)); [congruence|].
  destruct err as [e|]; [|done]. now apply decode_state_error in E.
Qed.

Lemma run_GetAllPortsState_loop_cons (y : YKUSH3) (port : Port)
    (ports : list Port) (states : gmap Z bool) (s : S) :
  run T (GetAllPortsState_loop y (port :: ports) states) s =
  match run T (GetPortState y port) s with
  | (Returned (state, None), s1, tr1) =>
      let '(o, s2, tr2) :=
        run T (GetAllPortsState_loop y ports (<[port := state]> states)) s1 in
      (o, s2, tr1 ++ tr2)
  | (Returned (_, Some e), s1, tr1) =>
      (Returned (None, Some (GetStateFailed port e)), s1, tr1)
  | (Panicked, s1, tr1) => (Panicked, s1, tr1)
  end.
Proof.
  cbn [GetAllPortsState_loop]. rewrite run_bind.
  destruct (run T (GetPortState y port) s) as [[[[st [e|]]|] s1] tr1];
    try reflexivity.
  cbn [run]. now rewrite app_nil_r.
Qed.

Lemma GetAllPortsState_loop_outcome (y : YKUSH3) (ports : list Port) :
  forall (states : gmap Z bool) (s : S),
  exists (o : option (gmap Z bool) * option error) (s' : S)
         (tr : list event),
    run T (GetAllPortsState_loop y ports states) s = (Returned o, s', tr) /\
    written tr `prefix_of` query_reports ports /\
    ((exists m : gmap Z bool,
        o = (Some m, None) /\
        dom m = list_to_set ports ∪ dom states /\
        written tr = query_reports ports)
     \/ (exists (port : Port) (e : error),
        o = (None, Some (GetStateFailed port e)) /\ port ∈ ports)).
Proof.
  induction ports as [|port ports IH]; intros states s.
  - exists (Some states, None), s, []. split; [reflexivity|].
    split; [apply prefix_nil|]. left. exists states.
    repeat split. now rewrite list_to_set_nil, (left_id_L ∅ (∪)).
  - rewrite run_GetAllPortsState_loop_cons, query_reports_cons.
    destruct (GetPortState_outcome y port s)
      as (st & err & s1 & tr1 & -> & Hpre & Hok & _).
    destruct err as [e|].
    + eexists _, _, _. split; [reflexivity|].
      split; [now apply prefix_app_r|].
      right. exists port, e. split; [reflexivity|]. apply list_elem_of_here.
    + destruct (IH (<[port := st]> states) s1)
        as (o & s2 & tr2 & -> & Hpre2 & Hcase).
      eexists _, _, _. split; [reflexivity|].
      rewrite written_app, Hok by reflexivity.
      split; [now apply prefix_app|].
      destruct Hcase as [(m & -> & Hdom & Hw)|(p & e & -> & Hin)].
      * left. exists m. split; [reflexivity|].
        split; [|now rewrite Hw].
        rewrite Hdom, dom_insert_L, list_to_set_cons.
        rewrite (comm_L (∪) {[port]} (list_to_set ports)).
        now rewrite <- (assoc_L (∪)).
      * right. exists p, e. split; [reflexivity|].
        now apply list_elem_of_further.
Qed.

(** C5. The bulk query asks for Port1, Port2, Port3 in that order, each
    query starting where the previous one left the transport: what it
    writes is always a prefix of the three query reports 0x21, 0x22, 0x23.
    It always returns, and what it returns is either a map with exactly
    the keys Port1, Port2, Port3 and no error (all three reports were then
    written), or no map (nil) and the error of the failed query.  When the
    three queries succeed the map holds their three states; when the query
    of Port1, of Port2 or of Port3 fails, the result is nil with that
    query's error wrapped, the states fetched before are dropped and no
    later port is queried. *)
Theorem GetAllPortsState_all_or_nothing (y : YKUSH3) (s : S) :
  (exists (o : option (gmap Z bool) * option error) (s' : S)
          (tr : list event),
     run T (GetAllPortsState y) s = (Returned o, s', tr) /\
     written tr `prefix_of`
       [report x21 x21; report x22 x22; report x23 x23] /\
     ((exists m : gmap Z bool,
         o = (Some m, None) /\
         dom m = {[Port1; Port2; Port3]} /\
         written tr = [report x21 x21; report x22 x22; report x23 x23])
      \/ (exists (port : Port) (e : error),
         o = (None, Some (GetStateFailed port e)) /\
         port ∈ [Port1; Port2; Port3]))) /\
  (forall (st1 st2 st3 : PortState) (s1 s2 s3 : S)
          (tr1 tr2 tr3 : list event),
     run T (GetPortState y Port1) s = (Returned (st1, None), s1, tr1) ->
     run T (GetPortState y Port2) s1 = (Returned (st2, None), s2, tr2) ->
     run T (GetPortState y Port3) s2 = (Returned (st3, None), s3, tr3) ->
     run T (GetAllPortsState y) s =
     (Returned
        (Some (<[Port3 := st3]> (<[Port2 := st2]> (<[Port1 := st1]> ∅))),
         None),
      s3, tr1 ++ tr2 ++ tr3)) /\
  (forall (st1 : PortState) (e : error) (s1 : S) (tr1 : list event),
     run T (GetPortState y Port1) s = (Returned (st1, Some e), s1, tr1) ->
     run T (GetAllPortsState y) s =
     (Returned (None, Some (GetStateFailed Port1 e)), s1, tr1)) /\
  (forall (st1 st2 : PortState) (e : error) (s1 s2 : S)
          (tr1 tr2 : list event),
     run T (GetPortState y Port1) s = (Returned (st1, None), s1, tr1) ->
     run T (GetPortState y Port2) s1 = (Returned (st2, Some e), s2, tr2) ->
     run T (GetAllPortsState y) s =
     (Returned (None, Some (GetStateFailed Port2 e)), s2, tr1 ++ tr2)) /\
  (forall (st1 st2 st3 : PortState) (e : error) (s1 s2 s3 : S)
          (tr1 tr2 tr3 : list event),
     run T (GetPortState y Port1) s = (Returned (st1, None), s1, tr1) ->
     run T (GetPortState y Port2) s1 = (Returned (st2, None), s2, tr2) ->
     run T (GetPortState y Port3) s2 = (Returned (st3, Some e), s3, tr3) ->
     run T (GetAllPortsState y) s =
     (Returned (None, Some (GetStateFailed Port3 e)), s3,
      tr1 ++ tr2 ++ tr3)).
Proof.
  unfold GetAllPortsState. cbv zeta.
  split; [|split; [|split; [|split]]].
  - destruct (GetAllPortsState_loop_outcome y [Port1; Port2; Port3] ∅ s)
      as (o & s' & tr & Hrun & Hpre & Hcase).
    exists o, s', tr. split; [exact Hrun|]. split; [exact Hpre|].
    destruct Hcase as [(m & -> & Hdom & Hw)|(p & e & -> & Hin)].
    + left. exists m. split; [reflexivity|]. split; [|exact Hw].
      rewrite Hdom, dom_empty_L. set_solver.
    + right. now exists p, e.
  - intros st1 st2 st3 s1 s2 s3 tr1 tr2 tr3 H1 H2 H3.
    rewrite run_GetAllPortsState_loop_cons, H1.
    rewrite run_GetAllPortsState_loop_cons, H2.
    rewrite run_GetAllPortsState_loop_cons, H3.
    cbn [GetAllPortsState_loop run]. now rewrite app_nil_r.
  - intros st1 e s1 tr1 H1.
    now rewrite run_GetAllPortsState_loop_cons, H1.
  - intros st1 st2 e s1 s2 tr1 tr2 H1 H2.
    rewrite run_GetAllPortsState_loop_cons, H1.
    now rewrite run_GetAllPortsState_loop_cons, H2.
  - intros st1 st2 st3 e s1 s2 s3 tr1 tr2 tr3 H1 H2 H3.
    rewrite run_GetAllPortsState_loop_cons, H1.
    rewrite run_GetAllPortsState_loop_cons, H2.
    now rewrite run_GetAllPortsState_loop_cons, H3.
Qed.

(** ** Argument checks and the closed handle *)

Lemma run_PortUp_invalid (y : YKUSH3) (port : Port) (s : S) :
  PortUp_cmd port = None ->
  run T (PortUp y port) s = (Returned (Some (InvalidPort port)), s, []).
Proof. intros Hc. unfold PortUp. now rewrite Hc. Qed.

Lemma run_PortDown_invalid (y : YKUSH3) (port : Port) (s : S) :
  PortDown_cmd port = None ->
  run T (PortDown y port) s = (Returned (Some (InvalidPort port)), s, []).
Proof. intros Hc. unfold PortDown. now rewrite Hc. Qed.

Lemma run_PortUp_closed (y : YKUSH3) (port : Port) (s : S) :
  device y = None ->
  port = Port1 \/ port = Port2 \/ port = Port3 \/ port = AllPorts ->
  run T (PortUp y port) s = (Returned (Some NotConnected), s, []).
Proof.
  intros Hd Hp.
  assert (exists cmd, PortUp_cmd port = Some cmd) as [cmd Hc]
    by (destruct Hp as [->|[->|[->| ->]]]; eexists; reflexivity).
  rewrite (PortUp_actuate y port cmd Hc). now apply run_actuate_closed.
Qed.

Lemma run_PortDown_closed (y : YKUSH3) (port : Port) (s : S) :
  device y = None ->
  port = Port1 \/ port = Port2 \/ port = Port3 \/ port = AllPorts ->
  run T (PortDown y port) s = (Returned (Some NotConnected), s, []).
Proof.
  intros Hd Hp.
  assert (exists cmd, PortDown_cmd port = Some cmd) as [cmd Hc]
    by (destruct Hp as [->|[->|[->| ->]]]; eexists; reflexivity).
  rewrite (PortDown_actuate y port cmd Hc). now apply run_actuate_closed.
Qed.

(** C7. A port other than Port1, Port2, Port3 and AllPorts given to Raise
    ([PortUp]) or Lower ([PortDown]), also through [SetPortState], and a
    port other than Port1, Port2, Port3 given to QueryState
    ([GetPortState]), AllPorts among them, fails with the invalid-port
    error, an ArgumentError, on any handle; no HID call is made and the
    transport is left as it was. *)
Theorem invalid_port_fails_before_io (y : YKUSH3) (port : Port) (s : S) :
  (port <> Port1 -> port <> Port2 -> port <> Port3 -> port <> AllPorts ->
     run T (PortUp y port) s = (Returned (Some (InvalidPort port)), s, []) /\
     run T (PortDown y port) s = (Returned (Some (InvalidPort port)), s, []) /\
     (forall state : PortState,
        run T (SetPortState y port state) s =
        (Returned (Some (InvalidPort port)), s, [])) /\
     kind (InvalidPort port) = ArgumentError) /\
  (port <> Port1 -> port <> Port2 -> port <> Port3 ->
     run T (GetPortState y port) s =
     (Returned (PortOff, Some (InvalidPortForStateQuery port)), s, []) /\
     kind (InvalidPortForStateQuery port) = ArgumentError) /\
  run T (GetPortState y AllPorts) s =
  (Returned (PortOff, Some (InvalidPortForStateQuery AllPorts)), s, []).
Proof.
  split; [|split].
  - intros H1 H2 H3 H4.
    assert (Hu : PortUp_cmd port = None) by now apply PortUp_cmd_None.
    assert (Hl : PortDown_cmd port = None) by now apply PortDown_cmd_None.
    repeat split.
    + now apply run_PortUp_invalid.
    + now apply run_PortDown_invalid.
    + intros [|]; simpl;
        [now apply run_PortUp_invalid | now apply run_PortDown_invalid].
  - intros H1 H2 H3. split; [|reflexivity].
    apply run_GetPortState_invalid. now apply GetPortState_cmd_None.
  - reflexivity.
Qed.

Lemma run_Close_closed (y : YKUSH3) (s : S) :
  device y = None -> run T (Close y) s = (Returned (y, None), s, []).
Proof. intros Hd. unfold Close. now rewrite Hd. Qed.

(** C6, as amended. [Close] always leaves the handle closed, and on a
    closed handle it is a no-op that returns no error.  On a closed handle
    [GetSerial], and [PortUp], [PortDown], [SetPortState], [AllPortsUp],
    [AllPortsDown], [GetPortState] called with a port that is valid for
    them, fail with the not-connected error, and [GetAllPortsState] fails
    with that error wrapped for Port1; called with a port that is not valid
    for them they fail with the invalid-port error instead.  None of these
    calls makes a HID call. *)
Theorem closed_handle_fails_without_io (y : YKUSH3) (s : S) :
  (exists (y' : YKUSH3) (err : option error) (s1 : S) (tr : list event),
     run T (Close y) s = (Returned (y', err), s1, tr) /\
     device y' = None /\
     run T (Close y') s1 = (Returned (y', None), s1, [])) /\
  (device y = None ->
     run T (Close y) s = (Returned (y, None), s, []) /\
     run T (GetSerial y) s =
     (Returned (EmptyString, Some NotConnected), s, []) /\
     (forall port : Port,
        port = Port1 \/ port = Port2 \/ port = Port3 \/ port = AllPorts ->
        run T (PortUp y port) s = (Returned (Some NotConnected), s, []) /\
        run T (PortDown y port) s = (Returned (Some NotConnected), s, []) /\
        forall state : PortState,
          run T (SetPortState y port state) s =
          (Returned (Some NotConnected), s, [])) /\
     run T (AllPortsUp y) s = (Returned (Some NotConnected), s, []) /\
     run T (AllPortsDown y) s = (Returned (Some NotConnected), s, []) /\
     (forall port : Port,
        port = Port1 \/ port = Port2 \/ port = Port3 ->
        run T (GetPortState y port) s =
        (Returned (PortOff, Some NotConnected), s, [])) /\
     run T (GetAllPortsState y) s =
     (Returned (None, Some (GetStateFailed Port1 NotConnected)), s, []) /\
     kind (GetStateFailed Port1 NotConnected) = NotConnectedError /\
     kind NotConnected = NotConnectedError /\
     (forall port : Port,
        port <> Port1 -> port <> Port2 -> port <> Port3 ->
        port <> AllPorts ->
        run T (PortUp y port) s =
        (Returned (Some (InvalidPort port)), s, []) /\
        run T (PortDown y port) s =
        (Returned (Some (InvalidPort port)), s, [])) /\
     (forall port : Port,
        port <> Port1 -> port <> Port2 -> port <> Port3 ->
        run T (GetPortState y port) s =
        (Returned (PortOff, Some (InvalidPortForStateQuery port)), s, []))).
Proof.
  split.
  - unfold Close at 1. destruct (device y) as [d|] eqn:Hd.
    + cbn [bind DeviceClose run].
      destruct (hid_Close T d s) as [err s1].
      eexists _, _, _, _. split; [reflexivity|]. split; reflexivity.
    + exists y, None, s, []. split; [reflexivity|].
      split; [assumption|]. now apply run_Close_closed.
  - intros Hd. repeat split.
    + now apply run_Close_closed.
    + unfold GetSerial. now rewrite Hd.
    + now apply run_PortUp_closed.
    + now apply run_PortDown_closed.
    + intros [|]; simpl;
        [now apply run_PortUp_closed | now apply run_PortDown_closed].
    + apply run_PortUp_closed; auto.
    + apply run_PortDown_closed; auto.
    + intros port Hp.
      assert (exists cmd, GetPortState_cmd port = Some cmd) as [cmd Hc]
        by (destruct Hp as [->|[->| ->]]; eexists; reflexivity).
      now apply (run_GetPortState_closed y port cmd).
    + unfold GetAllPortsState. cbv zeta.
      rewrite run_GetAllPortsState_loop_cons.
      now rewrite (run_GetPortState_closed y Port1 x21).
    + apply run_PortUp_invalid. now apply PortUp_cmd_None.
    + apply run_PortDown_invalid. now apply PortDown_cmd_None.
    + intros port H1 H2 H3.
      apply run_GetPortState_invalid. now apply GetPortState_cmd_None.
Qed.

(** ** The exchange *)

Lemma report_bytes (cmd ctrl : byte) :
  length (report cmd ctrl) = ReportSize /\
  report cmd ctrl !! 0%nat = Some cmd /\
  report cmd ctrl !! 1%nat = Some ctrl /\
  forall i : nat, (2 <= i < ReportSize)%nat -> report cmd ctrl !! i = Some x00.
Proof.
  repeat split. intros i [Hlo Hhi]. unfold ReportSize in Hhi.
  destruct i as [|[|j]]; try lia.
  change (report cmd ctrl !! Datatypes.S (Datatypes.S j))
    with (replicate 62 x00 !! j).
  apply lookup_replicate_2. lia.
Qed.

Lemma echoes_prefix (l1 l2 : list (list byte)) :
  l1 `prefix_of` l2 -> Forall echoes l2 -> Forall echoes l1.
Proof. intros [k ->] H. now apply Forall_app in H as [H _]. Qed.

Lemma query_reports_echo (ports : list Port) :
  Forall echoes (query_reports ports).
Proof.
  induction ports as [|port ports IH]; [constructor|].
  rewrite query_reports_cons. apply Forall_app. split; [|exact IH].
  unfold query_reports. simpl.
  destruct (GetPortState_cmd port) as [cmd|]; simpl; [|constructor].
  constructor; [now exists cmd | constructor].
Qed.

Lemma actuate_echoes (y : YKUSH3) (cmd : byte) (s : S) :
  Forall echoes (written (trace (run T (actuate y cmd) s))).
Proof.
  destruct (device y) as [d|] eqn:Hd.
  - destruct (run_actuate_open y d cmd s Hd)
      as [(e & s1 & ->)|[(e & s1 & ->)|(resp & r0 & r1 & s1 & _ & _ & _ & ->)]];
      (constructor; [now exists cmd | constructor]).
  - rewrite run_actuate_closed by assumption. constructor.
Qed.

Lemma PortUp_echoes (y : YKUSH3) (port : Port) (s : S) :
  Forall echoes (written (trace (run T (PortUp y port) s))).
Proof.
  destruct (PortUp_cmd port) as [cmd|] eqn:Hc.
  - rewrite (PortUp_actuate y port cmd Hc). apply actuate_echoes.
  - rewrite run_PortUp_invalid by assumption. constructor.
Qed.

Lemma PortDown_echoes (y : YKUSH3) (port : Port) (s : S) :
  Forall echoes (written (trace (run T (PortDown y port) s))).
Proof.
  destruct (PortDown_cmd port) as [cmd|] eqn:Hc.
  - rewrite (PortDown_actuate y port cmd Hc). apply actuate_echoes.
  - rewrite run_PortDown_invalid by assumption. constructor.
Qed.

Lemma GetPortState_echoes (y : YKUSH3) (port : Port) (s : S) :
  Forall echoes (written (trace (run T (GetPortState y port) s))).
Proof.
  destruct (GetPortState_outcome y port s)
    as (st & err & s1 & tr & -> & Hpre & _).
  eapply echoes_prefix; [exact Hpre | apply query_reports_echo].
Qed.

Lemma GetAllPortsState_echoes (y : YKUSH3) (s : S) :
  Forall echoes (written (trace (run T (GetAllPortsState y) s))).
Proof.
  destruct (GetAllPortsState_loop_outcome y [Port1; Port2; Port3] ∅ s)
    as (o & s' & tr & Hrun & Hpre & _).
  unfold GetAllPortsState. cbv zeta. rewrite Hrun.
  eapply echoes_prefix; [exact Hpre | apply query_reports_echo].
Qed.

(** C8, as amended. On an open handle an exchange builds a 64-byte report
    with the command byte at 0, the control byte at 1 and zeros after, and
    writes it once.  When that write reports an error the exchange returns
    it as a transport error and reads nothing; otherwise it reads once,
    into a 64-byte buffer, and returns the buffer as it is after the read,
    or the transport error of the read.  Every report the public methods
    write has its control byte equal to its command byte. *)
Theorem sendCommand_write_then_read (y : YKUSH3) (d : Device)
    (cmd ctrl : byte) (s : S) :
  device y = Some d ->
  (length (report cmd ctrl) = ReportSize /\
   report cmd ctrl !! 0%nat = Some cmd /\
   report cmd ctrl !! 1%nat = Some ctrl /\
   forall i : nat,
     (2 <= i < ReportSize)%nat -> report cmd ctrl !! i = Some x00) /\
  (forall (n : Z) (e : hid_error) (s1 : S),
     hid_Write T d (report cmd ctrl) s = ((n, Some e), s1) ->
     run T (sendCommand y cmd ctrl) s =
     (Returned ([], Some (SendFailed e)), s1,
      [EvWrite d (report cmd ctrl)]) /\
     kind (SendFailed e) = TransportError) /\
  (forall (n m : Z) (data : list byte) (e : hid_error) (s1 s2 : S),
     hid_Write T d (report cmd ctrl) s = ((n, None), s1) ->
     hid_Read T d ReportSize s1 = ((data, m, Some e), s2) ->
     run T (sendCommand y cmd ctrl) s =
     (Returned ([], Some (ReadFailed e)), s2,
      [EvWrite d (report cmd ctrl); EvRead d (replicate ReportSize x00)]) /\
     kind (ReadFailed e) = TransportError) /\
  (forall (n m : Z) (data : list byte) (s1 s2 : S),
     hid_Write T d (report cmd ctrl) s = ((n, None), s1) ->
     hid_Read T d ReportSize s1 = ((data, m, None), s2) ->
     run T (sendCommand y cmd ctrl) s =
     (Returned (fill (replicate ReportSize x00) data, None), s2,
      [EvWrite d (report cmd ctrl); EvRead d (replicate ReportSize x00)])) /\
  (forall port : Port,
     Forall echoes (written (trace (run T (PortUp y port) s))) /\
     Forall echoes (written (trace (run T (PortDown y port) s))) /\
     Forall echoes (written (trace (run T (GetPortState y port) s)))) /\
  Forall echoes (written (trace (run T (GetAllPortsState y) s))).
Proof.
  intros Hd. rewrite (run_sendCommand_open y d) by assumption.
  unfold exchange.
  split; [apply report_bytes|].
  split; [intros n e s1 Hw; now rewrite Hw|].
  split; [intros n m data e s1 s2 Hw Hr; now rewrite Hw, Hr|].
  split; [intros n m data s1 s2 Hw Hr; now rewrite Hw, Hr|].
  split; [|apply GetAllPortsState_echoes].
  intros port. split; [apply PortUp_echoes|].
  split; [apply PortDown_echoes | apply GetPortState_echoes].
Qed.

(** C9. [GetPortState] always returns, and whenever it returns an error,
    whatever the path (invalid port, closed handle, failed write or read,
    bad status byte, unexpected state byte), the state it returns with the
    error is PortOff. *)
Theorem GetPortState_error_state_is_PortOff (y : YKUSH3) (port : Port)
    (s : S) :
  (exists (st : PortState) (err : option error) (s1 : S) (tr : list event),
     run T (GetPortState y port) s = (Returned (st, err), s1, tr)) /\
  (forall (st : PortState) (e : error) (s1 : S) (tr : list event),
     run T (GetPortState y port) s = (Returned (st, Some e), s1, tr) ->
     st = PortOff).
Proof.
  destruct (GetPortState_outcome y port s)
    as (st & err & s1 & tr & Hrun & _ & _ & Hoff).
  split; [now exists st, err, s1, tr|].
  intros st' e s1' tr'. rewrite Hrun. intros [= <- -> _ _].
  now apply Hoff.
Qed.

End WithTransport.

(** ** Byte counts *)

Section ByteCounts.

Context {S : Type} (T : Transport S) (f g : Z -> Z).

Lemma recount_sendCommand (y : YKUSH3) (cmd ctrl : byte) (s : S) :
  run (recount f g T) (sendCommand y cmd ctrl) s =
  run T (sendCommand y cmd ctrl) s.
Proof.
  destruct (device y) as [d|] eqn:Hd.
  - rewrite !(run_sendCommand_open _ y d) by assumption.
    unfold exchange. cbn [recount hid_Write hid_Read].
    destruct (hid_Write T d (report cmd ctrl) s) as [[n [e|]] s1];
      [reflexivity|].
    now destruct (hid_Read T d ReportSize s1) as [[[data m] [e|]] s2].
  - now rewrite !run_sendCommand_closed.
Qed.

Lemma recount_bind {A B : Type} (m : hid A) (k : A -> hid B) (s : S) :
  run (recount f g T) m s = run T m s ->
  (forall (a : A) (s1 : S), run (recount f g T) (k a) s1 = run T (k a) s1) ->
  run (recount f g T) (bind m k) s = run T (bind m k) s.
Proof.
  intros Hm Hk. rewrite !run_bind, Hm.
  destruct (run T m s) as [[[a|] s1] tr1]; [|reflexivity].
  now rewrite Hk.
Qed.

Lemma recount_actuate (y : YKUSH3) (cmd : byte) (s : S) :
  run (recount f g T) (actuate y cmd) s = run T (actuate y cmd) s.
Proof.
  unfold actuate. apply recount_bind; [apply recount_sendCommand|].
  intros [resp [e|]] s1; [reflexivity|]. unfold index.
  destruct (resp !! 0%nat) as [r0|]; [|reflexivity].
  destruct (resp !! 1%nat) as [r1|]; [|reflexivity].
  cbn [bind]. now destruct (negb (Byte.eqb r0 x01) || negb (Byte.eqb r1 cmd)).
Qed.

Lemma recount_GetPortState (y : YKUSH3) (port : Port) (s : S) :
  run (recount f g T) (GetPortState y port) s = run T (GetPortState y port) s.
Proof.
  unfold GetPortState.
  destruct (GetPortState_cmd port) as [cmd|]; [|reflexivity].
  apply recount_bind; [apply recount_sendCommand|].
  intros [resp [e|]] s1; [reflexivity|]. unfold index.
  destruct (resp !! 0%nat) as [r0|]; [|reflexivity].
  cbn [bind]. destruct (negb (Byte.eqb r0 x01)); [reflexivity|].
  now destruct (resp !! 1%nat) as [r1|].
Qed.

Lemma recount_GetAllPortsState_loop (y : YKUSH3) (ports : list Port) :
  forall (states : gmap Z bool) (s : S),
    run (recount f g T) (GetAllPortsState_loop y ports states) s =
    run T (GetAllPortsState_loop y ports states) s.
Proof.
  induction ports as [|port ports IH]; intros states s; [reflexivity|].
  cbn [GetAllPortsState_loop].
  apply recount_bind; [apply recount_GetPortState|].
  intros [st [e|]] s1; [reflexivity | apply IH].
Qed.

(** C10. The byte counts that [Write] and [Read] report never reach the
    result: with the counts replaced by any others, [sendCommand] and the
    methods built on it run the same, to the same result, final state and
    HID calls.  On an open handle the exchange succeeds exactly when the
    write and then the read report no error.  So whatever counts they
    report and however few bytes the read delivered, the exchange then
    succeeds with a 64-byte buffer: the delivered bytes at the front, the
    zeros of the fresh buffer after them, which the callers then decode
    like any response. *)
Theorem byte_counts_are_ignored (y : YKUSH3) (cmd ctrl : byte) (s : S) :
  run (recount f g T) (sendCommand y cmd ctrl) s =
  run T (sendCommand y cmd ctrl) s /\
  (forall port : Port,
     run (recount f g T) (PortUp y port) s = run T (PortUp y port) s /\
     run (recount f g T) (PortDown y port) s = run T (PortDown y port) s /\
     run (recount f g T) (GetPortState y port) s =
     run T (GetPortState y port) s) /\
  run (recount f g T) (GetAllPortsState y) s = run T (GetAllPortsState y) s /\
  (forall d : Device,
     device y = Some d ->
     (exists (resp : list byte) (s' : S) (tr : list event),
        run T (sendCommand y cmd ctrl) s = (Returned (resp, None), s', tr))
     <->
     (exists (n m : Z) (data : list byte) (s1 s2 : S),
        hid_Write T d (report cmd ctrl) s = ((n, None), s1) /\
        hid_Read T d ReportSize s1 = ((data, m, None), s2))) /\
  (forall (d : Device) (n m : Z) (data : list byte) (s1 s2 : S),
     device y = Some d ->
     hid_Write T d (report cmd ctrl) s = ((n, None), s1) ->
     hid_Read T d ReportSize s1 = ((data, m, None), s2) ->
     exists resp : list byte,
       run T (sendCommand y cmd ctrl) s =
       (Returned (resp, None), s2,
        [EvWrite d (report cmd ctrl); EvRead d (replicate ReportSize x00)]) /\
       length resp = ReportSize /\
       (forall i : nat,
          (i < length data)%nat -> (i < ReportSize)%nat ->
          resp !! i = data !! i) /\
       (forall i : nat,
          (length data <= i < ReportSize)%nat -> resp !! i = Some x00)).
Proof.
  split; [apply recount_sendCommand|].
  split; [|split; [apply recount_GetAllPortsState_loop|split]].
  - intros port. split; [|split; [|apply recount_GetPortState]].
    + unfold PortUp. destruct (PortUp_cmd port) as [c|]; [|reflexivity].
      apply recount_actuate.
    + unfold PortDown. destruct (PortDown_cmd port) as [c|]; [|reflexivity].
      apply recount_actuate.
  - intros d Hd. rewrite (run_sendCommand_open T y d) by assumption.
    unfold exchange.
    destruct (hid_Write T d (report cmd ctrl) s) as [[n [e|]] s1].
    { split; [intros (? & ? & ? & H)|intros (? & ? & ? & ? & ? & H & _)];
        discriminate H. }
    destruct (hid_Read T d ReportSize s1) as [[[data m] [e|]] s2] eqn:Er.
    { split; [intros (? & ? & ? & H); discriminate H|].
      intros (? & ? & ? & ? & ? & Hw & Hr).
      injection Hw as _ <-. rewrite Er in Hr. discriminate Hr. }
    split; [intros _; now exists n, m, data, s1, s2|].
    intros _. now eexists _, _, _.
  - intros d n m data s1 s2 Hd Hw Hr.
    exists (fill (make ReportSize) data).
    rewrite (run_sendCommand_open T y d) by assumption.
    unfold exchange. rewrite Hw, Hr. split; [reflexivity|].
    split; [apply fill_length|]. split.
    + intros i Hi Hi'. now apply fill_lookup_data.
    + intros i [Hlo Hhi]. rewrite fill_lookup_rest by assumption.
      now apply lookup_replicate_2.
Qed.

End ByteCounts.

(** ** Concrete runs on the scripted transport *)

Import Script.

Lemma exchange_responds (cmd : byte) (data : list byte) :
  responds transport 0%nat cmd (replies data)
    (fill (make ReportSize) data) [].
Proof.
  exists 64, (Z.of_nat (length data)), data,
    [OnRead data (Z.of_nat (length data)) None].
  repeat split.
Defined.

(** A query of Port2 answered with status 0x01 and state 0x12: PortOn. *)
Lemma GetPortState_decodes_response_witness :
  device opened = Some 0%nat /\
  GetPortState_cmd Port2 = Some x22 /\
  responds transport 0%nat x22 (replies [x01; x12])
    (fill (make ReportSize) [x01; x12]) [] /\
  run transport (GetPortState opened Port2) (replies [x01; x12]) =
  (Returned (PortOn, None), [], exchanged 0%nat x22).
Proof.
  split; [reflexivity|]. split; [reflexivity|].
  split; [apply exchange_responds|].
  apply (GetPortState_decodes_response transport opened 0%nat Port2 x22
           (replies [x01; x12]) [] (fill (make ReportSize) [x01; x12])
           x01 x12 eq_refl eq_refl (exchange_responds x22 [x01; x12])
           eq_refl eq_refl).
  - reflexivity.
  - right; left; reflexivity.
Defined.

(** C3, the claim as stated fails: a query of Port1 answered with status
    0x01 and byte 1 = 0x21 does not return PortOff as a state; it fails with
    the unexpected-state error. *)
Lemma GetPortState_Port1_0x21_counterexample :
  fill (make ReportSize) [x01; x21] !! 0%nat = Some x01 /\
  fill (make ReportSize) [x01; x21] !! 1%nat = Some x21 /\
  run transport (GetPortState opened Port1) (replies [x01; x21]) =
  (Returned (PortOff, Some (UnexpectedStateResponse x21)), [],
   exchanged 0%nat x21) /\
  result (run transport (GetPortState opened Port1)
            (replies [x01; x21])) <> Returned (PortOff, None).
Proof.
  repeat split. discriminate.
Qed.

Lemma GetPortState_Port1_state_codes_witness :
  device opened = Some 0%nat /\
  responds transport 0%nat x21 (replies [x01; x21])
    (fill (make ReportSize) [x01; x21]) [] /\
  fill (make ReportSize) [x01; x21] !! 0%nat = Some x01 /\
  fill (make ReportSize) [x01; x21] !! 1%nat = Some x21 /\
  run transport (GetPortState opened Port1) (replies [x01; x21]) =
  (Returned (PortOff, Some (UnexpectedStateResponse x21)), [],
   exchanged 0%nat x21).
Proof.
  split; [reflexivity|]. split; [apply exchange_responds|].
  split; [reflexivity|]. split; [reflexivity|].
  apply (GetPortState_Port1_state_codes transport opened 0%nat
           (replies [x01; x21]) [] (fill (make ReportSize) [x01; x21])
           eq_refl (exchange_responds x21 [x01; x21]) eq_refl).
  reflexivity.
Defined.

(** Raise on Port1, echoed by the device; and echoed wrongly. *)
Lemma actuation_checks_echo_witness :
  device opened = Some 0%nat /\
  responds transport 0%nat x11 (replies [x01; x11])
    (fill (make ReportSize) [x01; x11]) [] /\
  PortUp_cmd Port1 = Some x11 /\
  run transport (PortUp opened Port1) (replies [x01; x11]) =
  (Returned None, [], exchanged 0%nat x11).
Proof.
  split; [reflexivity|]. split; [apply exchange_responds|].
  split; [reflexivity|].
  apply (actuation_checks_echo transport opened 0%nat Port1 x11
           (replies [x01; x11]) [] (fill (make ReportSize) [x01; x11])
           x01 x11 eq_refl (exchange_responds x11 [x01; x11])
           eq_refl eq_refl).
  - reflexivity.
  - split; reflexivity.
Defined.

(** The bulk query against a device that answers on, off, on; and against
    one whose transport fails while Port2 is queried. *)
Lemma GetAllPortsState_all_or_nothing_witness :
  (run transport (GetPortState opened Port1)
     (replies [x01; x11] ++ replies [x01; x02] ++ replies [x01; x13]) =
     (Returned (PortOn, None), replies [x01; x02] ++ replies [x01; x13],
      exchanged 0%nat x21) /\
   run transport (GetPortState opened Port2)
     (replies [x01; x02] ++ replies [x01; x13]) =
     (Returned (PortOff, None), replies [x01; x13], exchanged 0%nat x22) /\
   run transport (GetPortState opened Port3) (replies [x01; x13]) =
     (Returned (PortOn, None), [], exchanged 0%nat x23) /\
   run transport (GetAllPortsState opened)
     (replies [x01; x11] ++ replies [x01; x02] ++ replies [x01; x13]) =
     (Returned
        (Some (<[Port3 := PortOn]>
                 (<[Port2 := PortOff]> (<[Port1 := PortOn]> ∅))), None),
      [], exchanged 0%nat x21 ++ exchanged 0%nat x22 ++ exchanged 0%nat x23))
  /\
  (run transport (GetPortState opened Port1)
     (replies [x01; x11] ++ failing_read) =
     (Returned (PortOn, None), failing_read, exchanged 0%nat x21) /\
   run transport (GetPortState opened Port2) failing_read =
     (Returned (PortOff, Some (ReadFailed io_error)), [],
      exchanged 0%nat x22) /\
   run transport (GetAllPortsState opened)
     (replies [x01; x11] ++ failing_read) =
     (Returned (None, Some (GetStateFailed Port2 (ReadFailed io_error))),
      [], exchanged 0%nat x21 ++ exchanged 0%nat x22)).
Proof.
  split.
  - split; [reflexivity|]. split; [reflexivity|]. split; [reflexivity|].
    apply (proj1 (proj2 (GetAllPortsState_all_or_nothing transport opened
                           (replies [x01; x11] ++ replies [x01; x02] ++
                            replies [x01; x13])))
             PortOn PortOff PortOn
             (replies [x01; x02] ++ replies [x01; x13])
             (replies [x01; x13]) []); reflexivity.
  - split; [reflexivity|]. split; [reflexivity|].
    apply (proj1 (proj2 (proj2 (proj2
             (GetAllPortsState_all_or_nothing transport opened
                (replies [x01; x11] ++ failing_read)))))
             PortOn PortOff (ReadFailed io_error) failing_read []);
      reflexivity.
Defined.

(** C6, the claim as stated fails: on the handle that [Close] left closed,
    Raise with the port value 0 fails with the invalid-port error, an
    ArgumentError, not with the not-connected error. *)
Lemma closed_handle_invalid_port_counterexample :
  run transport (Close opened) [OnClose None] =
  (Returned (closed, None), [], [EvClose 0%nat]) /\
  device closed = None /\
  run transport (PortUp closed 0) [] =
  (Returned (Some (InvalidPort 0)), [], []) /\
  kind (InvalidPort 0) = ArgumentError /\
  kind (InvalidPort 0) <> NotConnectedError.
Proof.
  repeat split. discriminate.
Qed.

Lemma closed_handle_fails_without_io_witness :
  device closed = None /\
  run transport (Close closed) [] = (Returned (closed, None), [], []) /\
  run transport (PortUp closed Port1) [] =
  (Returned (Some NotConnected), [], []) /\
  run transport (GetAllPortsState closed) [] =
  (Returned (None, Some (GetStateFailed Port1 NotConnected)), [], []).
Proof.
  split; [reflexivity|].
  pose proof (proj2 (closed_handle_fails_without_io transport closed [])
                eq_refl) as (Hclose & _ & Hports & _ & _ & _ & Hall & _).
  split; [exact Hclose|]. split; [|exact Hall].
  apply (Hports Port1). left; reflexivity.
Defined.

Lemma invalid_port_fails_before_io_witness :
  (4 <> Port1 /\ 4 <> Port2 /\ 4 <> Port3 /\ 4 <> AllPorts) /\
  run transport (PortUp opened 4) (replies [x01; x11]) =
  (Returned (Some (InvalidPort 4)), replies [x01; x11], []) /\
  run transport (GetPortState opened 4) (replies [x01; x11]) =
  (Returned (PortOff, Some (InvalidPortForStateQuery 4)),
   replies [x01; x11], []).
Proof.
  assert (H1 : 4 <> Port1) by discriminate.
  assert (H2 : 4 <> Port2) by discriminate.
  assert (H3 : 4 <> Port3) by discriminate.
  assert (H4 : 4 <> AllPorts) by discriminate.
  split; [repeat split; assumption|].
  destruct (invalid_port_fails_before_io transport opened 4
              (replies [x01; x11])) as (Hact & Hquery & _).
  split.
  - apply (Hact H1 H2 H3 H4).
  - apply (Hquery H1 H2 H3).
Defined.

(** C8, the claim as stated fails: when the write reports an error the
    exchange ends there, with one write and no read. *)
Lemma sendCommand_failed_write_counterexample :
  run transport (sendCommand opened x11 x11) [OnWrite (-1) (Some io_error)] =
  (Returned ([], Some (SendFailed io_error)), [],
   [EvWrite 0%nat (report x11 x11)]) /\
  reads (trace (run transport (sendCommand opened x11 x11)
                  [OnWrite (-1) (Some io_error)])) = [] /\
  length (reads (trace (run transport (sendCommand opened x11 x11)
                          [OnWrite (-1) (Some io_error)]))) <> 1%nat.
Proof.
  repeat split. discriminate.
Qed.

Lemma sendCommand_write_then_read_witness :
  device opened = Some 0%nat /\
  hid_Write transport 0%nat (report x11 x11) (replies [x01; x11]) =
  ((64, None), [OnRead [x01; x11] 2 None]) /\
  hid_Read transport 0%nat ReportSize [OnRead [x01; x11] 2 None] =
  (([x01; x11], 2, None), []) /\
  run transport (sendCommand opened x11 x11) (replies [x01; x11]) =
  (Returned (fill (replicate ReportSize x00) [x01; x11], None), [],
   [EvWrite 0%nat (report x11 x11);
    EvRead 0%nat (replicate ReportSize x00)]).
Proof.
  split; [reflexivity|]. split; [reflexivity|]. split; [reflexivity|].
  destruct (sendCommand_write_then_read transport opened 0%nat x11 x11
              (replies [x01; x11]) eq_refl) as (_ & _ & _ & Hok & _).
  apply (Hok 64 2 [x01; x11] [OnRead [x01; x11] 2 None] []); reflexivity.
Defined.

Lemma GetPortState_error_state_is_PortOff_witness :
  run transport (GetPortState opened Port3) (replies [x00; x13]) =
  (Returned (PortOff, Some (CommandFailed x00)), [], exchanged 0%nat x23) /\
  PortOff = PortOff.
Proof.
  split; [reflexivity|].
  apply (proj2 (GetPortState_error_state_is_PortOff transport opened Port3
                  (replies [x00; x13]))
           PortOff (CommandFailed x00) [] (exchanged 0%nat x23)).
  reflexivity.
Defined.

(** A write that reports 1 byte and a read that delivers 1 byte, both
    without error: the exchange succeeds with 64 bytes, and the state query
    decodes the zero at byte 1. *)
Lemma byte_counts_are_ignored_witness :
  device opened = Some 0%nat /\
  hid_Write transport 0%nat (report x21 x21)
    [OnWrite 1 None; OnRead [x01] 1 None] =
  ((1, None), [OnRead [x01] 1 None]) /\
  hid_Read transport 0%nat ReportSize [OnRead [x01] 1 None] =
  (([x01], 1, None), []) /\
  (exists resp : list byte,
     run transport (sendCommand opened x21 x21)
       [OnWrite 1 None; OnRead [x01] 1 None] =
     (Returned (resp, None), [],
      [EvWrite 0%nat (report x21 x21);
       EvRead 0%nat (replicate ReportSize x00)]) /\
     length resp = ReportSize /\ resp !! 1%nat = Some x00) /\
  run transport (GetPortState opened Port1)
    [OnWrite 1 None; OnRead [x01] 1 None] =
  (Returned (PortOff, Some (UnexpectedStateResponse x00)), [],
   exchanged 0%nat x21).
Proof.
  split; [reflexivity|]. split; [reflexivity|]. split; [reflexivity|].
  split; [|reflexivity].
  destruct (byte_counts_are_ignored transport id id opened x21 x21
              [OnWrite 1 None; OnRead [x01] 1 None])
    as (_ & _ & _ & _ & Hok).
  destruct (Hok 0%nat 1 1 [x01] [OnRead [x01] 1 None] []
              eq_refl eq_refl eq_refl) as (resp & Hrun & Hlen & _ & Hrest).
  exists resp. split; [exact Hrun|]. split; [exact Hlen|].
  apply Hrest. simpl. unfold ReportSize. lia.
Defined.

(** ** Further behaviour of the methods *)

Section Methods.

Context {S : Type} (T : Transport S).

Lemma run_actuate_write_failed (y : YKUSH3) (d : Device) (cmd : byte)
    (s s1 : S) (n : Z) (e : hid_error) :
  device y = Some d ->
  hid_Write T d (report cmd cmd) s = ((n, Some e), s1) ->
  run T (actuate y cmd) s =
  (Returned (Some (SendFailed e)), s1, [EvWrite d (report cmd cmd)]).
Proof.
  intros Hd Hw. unfold actuate. rewrite run_bind.
  rewrite (run_sendCommand_open T y d) by assumption.
  unfold exchange. now rewrite Hw.
Qed.

Lemma run_actuate_read_failed (y : YKUSH3) (d : Device) (cmd : byte)
    (s s1 s2 : S) (n m : Z) (data : list byte) (e : hid_error) :
  device y = Some d ->
  hid_Write T d (report cmd cmd) s = ((n, None), s1) ->
  hid_Read T d ReportSize s1 = ((data, m, Some e), s2) ->
  run T (actuate y cmd) s =
  (Returned (Some (ReadFailed e)), s2, exchanged d cmd).
Proof.
  intros Hd Hw Hr. unfold actuate. rewrite run_bind.
  rewrite (run_sendCommand_open T y d) by assumption.
  unfold exchange. now rewrite Hw, Hr.
Qed.


(** X2. On an open handle a command with a valid port hands on a
    transport failure as it is: when the write reports an error the call
    returns the send error and nothing is read; when the read reports an
    error the call returns the read error, whatever bytes the read
    delivered.  [GetPortState] returns PortOff with either error. *)
Theorem transport_errors_are_handed_on (y : YKUSH3) (d : Device)
    (port : Port) (cmd : byte) (s : S) :
  device y = Some d ->
  (forall (n : Z) (e : hid_error) (s1 : S),
     hid_Write T d (report cmd cmd) s = ((n, Some e), s1) ->
     (PortUp_cmd port = Some cmd ->
        run T (PortUp y port) s =
        (Returned (Some (SendFailed e)), s1, [EvWrite d (report cmd cmd)])) /\
     (PortDown_cmd port = Some cmd ->
        run T (PortDown y port) s =
        (Returned (Some (SendFailed e)), s1, [EvWrite d (report cmd cmd)])) /\
     (GetPortState_cmd port = Some cmd ->
        run T (GetPortState y port) s =
        (Returned (PortOff, Some (SendFailed e)), s1,
         [EvWrite d (report cmd cmd)]))) /\
  (forall (n m : Z) (data : list byte) (e : hid_error) (s1 s2 : S),
     hid_Write T d (report cmd cmd) s = ((n, None), s1) ->
     hid_Read T d ReportSize s1 = ((data, m, Some e), s2) ->
     (PortUp_cmd port = Some cmd ->
        run T (PortUp y port) s =
        (Returned (Some (ReadFailed e)), s2, exchanged d cmd)) /\
     (PortDown_cmd port = Some cmd ->
        run T (PortDown y port) s =
        (Returned (Some (ReadFailed e)), s2, exchanged d cmd)) /\
     (GetPortState_cmd port = Some cmd ->
        run T (GetPortState y port) s =
        (Returned (PortOff, Some (ReadFailed e)), s2, exchanged d cmd))).
Proof.
  intros Hd. split.
  - intros n e s1 Hw. split; [|split]; intros Hc.
    + rewrite (PortUp_actuate y port cmd Hc).
      now apply (run_actuate_write_failed y d cmd s s1 n e).
    + rewrite (PortDown_actuate y port cmd Hc).
      now apply (run_actuate_write_failed y d cmd s s1 n e).
    + unfold GetPortState. rewrite Hc, run_bind.
      rewrite (run_sendCommand_open T y d) by assumption.
      unfold exchange. now rewrite Hw.
  - intros n m data e s1 s2 Hw Hr. split; [|split]; intros Hc.
    + rewrite (PortUp_actuate y port cmd Hc).
      now apply (run_actuate_read_failed y d cmd s s1 s2 n m data e).
    + rewrite (PortDown_actuate y port cmd Hc).
      now apply (run_actuate_read_failed y d cmd s s1 s2 n m data e).
    + unfold GetPortState. rewrite Hc, run_bind.
      rewrite (run_sendCommand_open T y d) by assumption.
      unfold exchange. now rewrite Hw, Hr.
Qed.

Lemma actuate_trace (y : YKUSH3) (d : Device) (cmd : byte) (s : S) :
  device y = Some d ->
  Forall (exchange_on d) (trace (run T (actuate y cmd) s)) /\
  (length (trace (run T (actuate y cmd) s)) <= 2)%nat.
Proof.
  intros Hd.
  destruct (run_actuate_open T y d cmd s Hd)
    as [(e & s1 & ->)|[(e & s1 & ->)|(resp & r0 & r1 & s1 & _ & _ & _ & ->)]];
    (split; [repeat constructor | simpl; lia]).
Qed.

Lemma GetPortState_trace (y : YKUSH3) (d : Device) (port : Port) (s : S) :
  device y = Some d ->
  Forall (exchange_on d) (trace (run T (GetPortState y port) s)) /\
  (length (trace (run T (GetPortState y port) s)) <= 2)%nat.
Proof.
  intros Hd. destruct (GetPortState_cmd port) as [cmd|] eqn:Hc.
  - destruct (run_GetPortState_open T y d port cmd s Hd Hc)
      as [(e & s1 & ->)|[(e & s1 & ->)
         |(resp & r0 & r1 & s1 & _ & _ & _ & ->)]];
      (split; [repeat constructor | simpl; lia]).
  - rewrite run_GetPortState_invalid by assumption.
    split; [constructor | simpl; lia].
Qed.

Lemma GetAllPortsState_loop_trace (y : YKUSH3) (d : Device)
    (ports : list Port) :
  device y = Some d ->
  forall (states : gmap Z bool) (s : S),
    Forall (exchange_on d)
      (trace (run T (GetAllPortsState_loop y ports states) s)) /\
    (length (trace (run T (GetAllPortsState_loop y ports states) s))
     <= 2 * length ports)%nat.
Proof.
  intros Hd. induction ports as [|port ports IH]; intros states s.
  - split; [constructor | simpl; lia].
  - rewrite run_GetAllPortsState_loop_cons.
    destruct (GetPortState_trace y d port s Hd) as [Hall Hlen].
    destruct (run T (GetPortState y port) s) as [[[[st [e|]]|] s1] tr1];
      unfold trace in *; cbn [snd length] in *.
    + split; [assumption | lia].
    + destruct (IH (<[port := st]> states) s1) as [Hall2 Hlen2].
      destruct (run T (GetAllPortsState_loop y ports (<[port := st]> states))
                  s1) as [[o s2] tr2]; cbn [snd] in *.
      split; [now apply Forall_app|]. rewrite length_app. lia.
    + split; [assumption | lia].
Qed.

(** X3. On an open handle the commands talk to the handle's own device
    only, and only by writes and reads: none of them closes the device or
    asks for its serial number.  [PortUp], [PortDown] and [GetPortState]
    make at most two HID calls, [GetAllPortsState] at most six. *)
Theorem commands_only_exchange (y : YKUSH3) (d : Device) (port : Port)
    (s : S) :
  device y = Some d ->
  (Forall (exchange_on d) (trace (run T (PortUp y port) s)) /\
   (length (trace (run T (PortUp y port) s)) <= 2)%nat) /\
  (Forall (exchange_on d) (trace (run T (PortDown y port) s)) /\
   (length (trace (run T (PortDown y port) s)) <= 2)%nat) /\
  (Forall (exchange_on d) (trace (run T (GetPortState y port) s)) /\
   (length (trace (run T (GetPortState y port) s)) <= 2)%nat) /\
  (Forall (exchange_on d) (trace (run T (GetAllPortsState y) s)) /\
   (length (trace (run T (GetAllPortsState y) s)) <= 6)%nat).
Proof.
  intros Hd. split; [|split; [|split]].
  - destruct (PortUp_cmd port) as [cmd|] eqn:Hc.
    + rewrite (PortUp_actuate y port cmd Hc). now apply actuate_trace.
    + rewrite run_PortUp_invalid by assumption.
      split; [constructor | simpl; lia].
  - destruct (PortDown_cmd port) as [cmd|] eqn:Hc.
    + rewrite (PortDown_actuate y port cmd Hc). now apply actuate_trace.
    + rewrite run_PortDown_invalid by assumption.
      split; [constructor | simpl; lia].
  - now apply GetPortState_trace.
  - apply (GetAllPortsState_loop_trace y d [Port1; Port2; Port3] Hd ∅ s).
Qed.

(** X4. [Close] on an open handle calls the device's [Close] once and
    returns its error as it is; the handle is closed and keeps its serial
    whether or not that call failed.  Closing twice therefore releases the
    device once only, and the second [Close] returns no error even after a
    first one that failed. *)
Theorem Close_releases_once (y : YKUSH3) (d : Device) (s s1 : S)
    (err : option hid_error) :
  device y = Some d ->
  hid_Close T d s = (err, s1) ->
  run T (Close y) s =
  (Returned (mkYKUSH3 None (serial y), HidError <$> err), s1, [EvClose d]) /\
  run T (Close_twice y) s =
  (Returned (mkYKUSH3 None (serial y), HidError <$> err, None), s1,
   [EvClose d]) /\
  closes (trace (run T (Close_twice y) s)) = [d].
Proof.
  intros Hd Hc.
  assert (H1 : run T (Close y) s =
               (Returned (mkYKUSH3 None (serial y), HidError <$> err), s1,
                [EvClose d])).
  { unfold Close. rewrite Hd. cbn [bind DeviceClose run]. now rewrite Hc. }
  assert (H2 : run T (Close_twice y) s =
               (Returned (mkYKUSH3 None (serial y), HidError <$> err, None),
                s1, [EvClose d])).
  { unfold Close_twice. rewrite run_bind, H1. reflexivity. }
  split; [exact H1|]. split; [exact H2|]. now rewrite H2.
Qed.

(** X5. [GetSerial] on an open handle asks the device, once, and returns
    its answer and error as they are; the serial stored in the handle plays
    no part, so two handles on the same device that differ in it give the
    same result. *)
Theorem GetSerial_asks_the_device (y : YKUSH3) (d : Device) (s s1 : S)
    (ser : string) (err : option hid_error) :
  device y = Some d ->
  hid_GetSerialNbr T d s = ((ser, err), s1) ->
  run T (GetSerial y) s =
  (Returned (ser, HidError <$> err), s1, [EvGetSerialNbr d]) /\
  forall stored : string,
    run T (GetSerial (mkYKUSH3 (Some d) stored)) s = run T (GetSerial y) s.
Proof.
  intros Hd Hg.
  assert (H : forall y', device y' = Some d ->
              run T (GetSerial y') s =
              (Returned (ser, HidError <$> err), s1, [EvGetSerialNbr d])).
  { intros y' Hd'. unfold GetSerial. rewrite Hd'.
    cbn [bind GetSerialNbr run]. now rewrite Hg. }
  split; [now apply H|]. intros stored. now rewrite !H.
Qed.

End Methods.

(** ** Opening and listing *)

Section Opening.

Context {S Info : Type} (L : Library S Info).

Lemma foldl_append_each (acc infos : list Info) :
  foldl (fun devices info => devices ++ [info]) acc infos = acc ++ infos.
Proof.
  revert acc. induction infos as [|info infos IH]; intros acc; simpl.
  - now rewrite app_nil_r.
  - rewrite IH. now rewrite <- app_assoc.
Qed.

(** X6. [NewWithSerial] initialises the library first and stops there when
    that fails, without trying to open anything.  Otherwise it makes one
    open call with the YKUSH3 vendor and product ids 0x04D8 and 0xF11B:
    [OpenFirst] when the serial is empty (as for [New]), [Open] with the
    serial otherwise.  When that call reports an error there is no handle;
    when it does not, the handle holds the device pointer it returned and
    the serial that was asked for.  A handle and an error never come
    together, and one of them always comes. *)
Theorem NewWithSerial_outcomes (asked : string) (s : S) :
  (forall (e : hid_error) (s1 : S),
     hid_Init L s = (Some e, s1) ->
     NewWithSerial L asked s =
     ((None, Some (InitFailed e)), s1, [EvInit])) /\
  (forall (s1 s2 : S) (dev : option Device) (err : option hid_error),
     hid_Init L s = (None, s1) ->
     asked = EmptyString ->
     hid_OpenFirst L 0x04D8 0xF11B s1 = ((dev, err), s2) ->
     NewWithSerial L asked s =
     (match err with
      | Some e => (None, Some (OpenFailed e))
      | None => (Some (mkYKUSH3 dev EmptyString), None)
      end, s2, [EvInit; EvOpenFirst 0x04D8 0xF11B]) /\
     New L s = NewWithSerial L asked s) /\
  (forall (s1 s2 : S) (dev : option Device) (err : option hid_error),
     hid_Init L s = (None, s1) ->
     asked <> EmptyString ->
     hid_Open L 0x04D8 0xF11B asked s1 = ((dev, err), s2) ->
     NewWithSerial L asked s =
     (match err with
      | Some e => (None, Some (OpenFailed e))
      | None => (Some (mkYKUSH3 dev asked), None)
      end, s2, [EvInit; EvOpen 0x04D8 0xF11B asked])) /\
  (exists (s' : S) (tr : list lib_event),
     (exists y : YKUSH3,
        NewWithSerial L asked s = ((Some y, None), s', tr) /\
        serial y = asked /\ tr = [EvInit; open_call asked])
     \/ (exists e : open_error,
        NewWithSerial L asked s = ((None, Some e), s', tr) /\
        (tr = [EvInit] \/ tr = [EvInit; open_call asked]))).
Proof.
  unfold New, NewWithSerial, open_call.
  split; [|split; [|split]].
  - intros e s1 Hi. now rewrite Hi.
  - intros s1 s2 dev err Hi -> Ho. rewrite Hi. cbn [String.eqb].
    change VendorID with 0x04D8. change ProductID with 0xF11B.
    rewrite Ho. now destruct err.
  - intros s1 s2 dev err Hi Hne Ho. rewrite Hi.
    apply String.eqb_neq in Hne. rewrite Hne.
    change VendorID with 0x04D8. change ProductID with 0xF11B.
    rewrite Ho. now destruct err.
  - destruct (hid_Init L s) as [[e|] s1].
    { exists s1, [EvInit]. right. exists (InitFailed e). auto. }
    destruct (String.eqb asked EmptyString).
    + destruct (hid_OpenFirst L VendorID ProductID s1) as [[dev [e|]] s2];
        eexists _, _; [right|left]; eexists; eauto.
    + destruct (hid_Open L VendorID ProductID asked s1) as [[dev [e|]] s2];
        eexists _, _; [right|left]; eexists; eauto.
Qed.

(** X7. [ListDevices] initialises the library first and stops there when
    that fails.  Otherwise it enumerates the devices with the YKUSH3 vendor
    and product ids, once: when the enumeration reports no error it returns
    every info the library handed over, each once and in that order (an
    empty list when there was none); when it reports an error it returns no
    list at all, whatever was handed over before. *)
Theorem ListDevices_outcomes (s : S) :
  (forall (e : hid_error) (s1 : S),
     hid_Init L s = (Some e, s1) ->
     ListDevices L s = (([], Some (InitFailed e)), s1, [EvInit])) /\
  (forall (s1 s2 : S) (infos : list Info),
     hid_Init L s = (None, s1) ->
     hid_Enumerate L 0x04D8 0xF11B s1 = ((infos, None), s2) ->
     ListDevices L s =
     ((infos, None), s2, [EvInit; EvEnumerate 0x04D8 0xF11B])) /\
  (forall (s1 s2 : S) (infos : list Info) (e : hid_error),
     hid_Init L s = (None, s1) ->
     hid_Enumerate L 0x04D8 0xF11B s1 = ((infos, Some e), s2) ->
     ListDevices L s =
     (([], Some (EnumerateFailed e)), s2,
      [EvInit; EvEnumerate 0x04D8 0xF11B])).
Proof.
  unfold ListDevices. split; [|split].
  - intros e s1 Hi. now rewrite Hi.
  - intros s1 s2 infos Hi He. rewrite Hi.
    change VendorID with 0x04D8. change ProductID with 0xF11B.
    rewrite He. now rewrite foldl_append_each.
  - intros s1 s2 infos e Hi He. rewrite Hi.
    change VendorID with 0x04D8. change ProductID with 0xF11B.
    now rewrite He.
Qed.

End Opening.

(** ** Use after close *)

Section AfterClose.

Context {S : Type} (T : Transport S).

Lemma actuate_returns (y : YKUSH3) (d : Device) (cmd : byte) (s : S) :
  device y = Some d ->
  exists (err : option error) (s1 : S) (tr : list event),
    run T (actuate y cmd) s = (Returned err, s1, tr).
Proof.
  intros Hd.
  destruct (run_actuate_open T y d cmd s Hd)
    as [(e & s1 & ->)|[(e & s1 & ->)|(resp & r0 & r1 & s1 & _ & _ & _ & ->)]];
    now eexists _, _, _.
Qed.

(** X8. A caller that raises a port on an open handle, closes the handle,
    raises the port again and closes again: the first call does its
    exchange, the first [Close] releases the device, and nothing reaches
    the device afterwards.  The second raise fails with the not-connected
    error and the second [Close] returns no error, whatever the first
    calls returned. *)
Theorem nothing_reaches_the_device_after_Close (y : YKUSH3) (d : Device)
    (port : Port) (cmd : byte) (s : S) :
  device y = Some d ->
  PortUp_cmd port = Some cmd ->
  exists (err1 : option error) (cerr : option hid_error) (s1 s2 : S)
         (tr1 : list event),
    run T (PortUp y port) s = (Returned err1, s1, tr1) /\
    hid_Close T d s1 = (cerr, s2) /\
    run T (use_after_Close y port) s =
    (Returned (err1, HidError <$> cerr, Some NotConnected, None), s2,
     tr1 ++ [EvClose d]).
Proof.
  intros Hd Hc.
  destruct (actuate_returns y d cmd s Hd) as (err1 & s1 & tr1 & Hrun).
  rewrite <- (PortUp_actuate y port cmd Hc) in Hrun.
  destruct (hid_Close T d s1) as [cerr s2] eqn:Hclose.
  exists err1, cerr, s1, s2, tr1.
  split; [exact Hrun|]. split; [exact Hclose|].
  unfold use_after_Close. rewrite run_bind, Hrun.
  rewrite run_bind.
  assert (H1 : run T (Close y) s1 =
               (Returned (mkYKUSH3 None (serial y), HidError <$> cerr), s2,
                [EvClose d])).
  { unfold Close. rewrite Hd. cbn [bind DeviceClose run].
    now rewrite Hclose. }
  rewrite H1. rewrite run_bind.
  rewrite (PortUp_actuate _ port cmd Hc).
  rewrite run_actuate_closed by reflexivity.
  reflexivity.
Qed.

End AfterClose.

(** ** Names, tables and error texts *)

Lemma append_inj (p a b : string) : (p +:+ a = p +:+ b)%string -> a = b.
Proof.
  induction p as [|c p IH]; simpl; [auto|]. intros [= H]. now apply IH.
Qed.

Lemma Port_String_decimal (p : Port) :
  p <> AllPorts -> Port_String p = ("Port " +:+ pretty p)%string.
Proof.
  intros Hne. unfold Port_String, Port1, Port2, Port3, AllPorts in *.
  switch_port p; try reflexivity. contradiction.
Qed.

(** X9. The printed name of a port is "All Ports" for AllPorts and "Port "
    followed by the decimal value for every other port, the three named
    ones included; so two ports with the same name are the same port.  The
    printed state is "ON" for PortOn and "OFF" for PortOff, and differs
    for the two. *)
Theorem Port_String_names (p q : Port) (st st' : PortState) :
  Port_String AllPorts = "All Ports"%string /\
  (p <> AllPorts -> Port_String p = ("Port " +:+ pretty p)%string) /\
  (Port_String p = Port_String q -> p = q) /\
  (PortState_String st = PortState_String st' -> st = st').
Proof.
  split; [reflexivity|]. split; [apply Port_String_decimal|]. split.
  - destruct (decide (p = AllPorts)) as [->|Hp],
             (decide (q = AllPorts)) as [->|Hq]; [reflexivity|..].
    + rewrite (Port_String_decimal q Hq). discriminate.
    + rewrite (Port_String_decimal p Hp). discriminate.
    + rewrite (Port_String_decimal p Hp), (Port_String_decimal q Hq).
      intros H. apply append_inj in H. now apply (inj pretty).
  - destruct st, st'; simpl; congruence.
Qed.

(** X10. The command byte tells the operation and the port: within each of
    the three tables two ports with the same command byte are the same
    port, and no byte is a command of two different operations. *)
Theorem command_bytes_unambiguous (p q : Port) (c : byte) :
  (PortUp_cmd p = Some c -> PortUp_cmd q = Some c -> p = q) /\
  (PortDown_cmd p = Some c -> PortDown_cmd q = Some c -> p = q) /\
  (GetPortState_cmd p = Some c -> GetPortState_cmd q = Some c -> p = q) /\
  (PortUp_cmd p = Some c -> PortDown_cmd q <> Some c) /\
  (PortUp_cmd p = Some c -> GetPortState_cmd q <> Some c) /\
  (PortDown_cmd p = Some c -> GetPortState_cmd q <> Some c).
Proof.
  rewrite !PortUp_cmd_Some, !PortDown_cmd_Some, !GetPortState_cmd_Some.
  repeat split; intros Hp Hq;
    decompose [and or] Hp; decompose [and or] Hq; subst;
    try reflexivity; discriminate.
Qed.

(** X11. The state codes are the actuation commands of the single ports:
    a response byte decodes to PortOn exactly when it is the Raise command
    of Port1, Port2 or Port3, and to PortOff exactly when it is the Lower
    command of one of them.  The commands for AllPorts and the query
    commands are not state codes. *)
Theorem state_codes_are_port_commands (c : byte) :
  (decode_state c = (PortOn, None) <->
   exists p : Port,
     (p = Port1 \/ p = Port2 \/ p = Port3) /\ PortUp_cmd p = Some c) /\
  (decode_state c = (PortOff, None) <->
   exists p : Port,
     (p = Port1 \/ p = Port2 \/ p = Port3) /\ PortDown_cmd p = Some c) /\
  (PortUp_cmd AllPorts = Some c \/ PortDown_cmd AllPorts = Some c \/
   (exists p : Port, GetPortState_cmd p = Some c) ->
   decode_state c = (PortOff, Some (UnexpectedStateResponse c))).
Proof.
  split; [|split].
  - split.
    + destruct c; try discriminate; intros _;
        [exists Port1|exists Port2|exists Port3]; auto.
    + intros (p & [->|[->| ->]] & [= <-]); reflexivity.
  - split.
    + destruct c; try discriminate; intros _;
        [exists Port1|exists Port2|exists Port3]; auto.
    + intros (p & [->|[->| ->]] & [= <-]); reflexivity.
  - intros [[= <-]|[[= <-]|(p & Hp)]]; try reflexivity.
    apply GetPortState_cmd_Some in Hp.
    destruct Hp as [[_ ->]|[[_ ->]|[_ ->]]]; reflexivity.
Qed.

Lemma unhex02_hex02 (b : byte) : unhex02 (hex02 b) = Some b.
Proof. destruct b; vm_compute; reflexivity. Qed.

Lemma hex02_inj (a b : byte) : hex02 a = hex02 b -> a = b.
Proof.
  intros H. apply (f_equal unhex02) in H.
  rewrite !unhex02_hex02 in H. now injection H.
Qed.

Lemma hex02_append_inj (a b : byte) (x y : string) :
  (hex02 a +:+ x = hex02 b +:+ y)%string -> a = b /\ x = y.
Proof.
  unfold hex02 at 1 2. cbn [String.append]. intros [= H1 H2 H3].
  split; [|exact H3]. apply hex02_inj. unfold hex02. now rewrite H1, H2.
Qed.

(** X12. The text of an error of the package's own checks tells which
    check failed and what it saw: two such errors with the same text are
    the same error, with the same port or the same observed bytes.  In
    particular the text of an unexpected-response error determines both
    response bytes. *)
Theorem Error_text_identifies (e1 e2 : error) :
  own_check e1 -> own_check e2 -> Error e1 = Error e2 -> e1 = e2.
Proof.
  destruct e1 as [| | |p1|p1|a1 b1|a1|b1| |],
           e2 as [| | |p2|p2|a2 b2|a2|b2| |];
    try contradiction; intros _ _; cbn [Error]; try reflexivity;
    try discriminate.
  - intros H. apply append_inj in H. now apply (inj pretty) in H as ->.
  - intros H. apply append_inj in H. now apply (inj pretty) in H as ->.
  - intros H. apply append_inj in H.
    apply hex02_append_inj in H as [-> H].
    apply append_inj in H. now apply hex02_inj in H as ->.
  - intros H. apply append_inj in H. now apply hex02_inj in H as ->.
  - intros H. apply append_inj in H. now apply hex02_inj in H as ->.
Qed.

(** ** The map of the bulk query *)

Section BulkMap.

Context {S : Type} (T : Transport S).

(** X13. When the three state queries succeed, the map that
    [GetAllPortsState] returns gives for Port1, Port2 and Port3 the state
    its own query returned, and has no entry for any other key, AllPorts
    included. *)
Theorem GetAllPortsState_map_lookup (y : YKUSH3) (s s1 s2 s3 : S)
    (st1 st2 st3 : PortState) (tr1 tr2 tr3 : list event) :
  run T (GetPortState y Port1) s = (Returned (st1, None), s1, tr1) ->
  run T (GetPortState y Port2) s1 = (Returned (st2, None), s2, tr2) ->
  run T (GetPortState y Port3) s2 = (Returned (st3, None), s3, tr3) ->
  exists m : gmap Z bool,
    run T (GetAllPortsState y) s =
    (Returned (Some m, None), s3, tr1 ++ tr2 ++ tr3) /\
    m !! Port1 = Some st1 /\ m !! Port2 = Some st2 /\
    m !! Port3 = Some st3 /\ m !! AllPorts = None /\
    forall k : Port,
      k <> Port1 -> k <> Port2 -> k <> Port3 -> m !! k = None.
Proof.
  intros H1 H2 H3.
  exists (<[Port3 := st3]> (<[Port2 := st2]> (<[Port1 := st1]> ∅))).
  split.
  - unfold GetAllPortsState. cbv zeta.
    rewrite run_GetAllPortsState_loop_cons, H1.
    rewrite run_GetAllPortsState_loop_cons, H2.
    rewrite run_GetAllPortsState_loop_cons, H3.
    cbn [GetAllPortsState_loop run]. now rewrite app_nil_r.
  - unfold Port1, Port2, Port3, AllPorts.
    repeat split; intros; now simplify_map_eq.
Qed.

End BulkMap.

(** ** More concrete runs *)

Lemma transport_errors_are_handed_on_witness :
  device opened = Some 0%nat /\
  hid_Write transport 0%nat (report x11 x11)
    [OnWrite (-1) (Some io_error)] = ((-1, Some io_error), []) /\
  PortUp_cmd Port1 = Some x11 /\
  run transport (PortUp opened Port1) [OnWrite (-1) (Some io_error)] =
  (Returned (Some (SendFailed io_error)), [],
   [EvWrite 0%nat (report x11 x11)]).
Proof.
  split; [reflexivity|]. split; [reflexivity|]. split; [reflexivity|].
  destruct (transport_errors_are_handed_on transport opened 0%nat Port1 x11
              [OnWrite (-1) (Some io_error)] eq_refl) as [Hw _].
  destruct (Hw (-1) io_error [] eq_refl) as [Hup _].
  apply Hup. reflexivity.
Defined.

Lemma commands_only_exchange_witness :
  device opened = Some 0%nat /\
  Forall (exchange_on 0%nat)
    (trace (run transport (GetAllPortsState opened)
              (replies [x01; x11] ++ failing_read))) /\
  (length (trace (run transport (GetAllPortsState opened)
                    (replies [x01; x11] ++ failing_read))) <= 6)%nat.
Proof.
  split; [reflexivity|].
  apply (commands_only_exchange transport opened 0%nat Port1
           (replies [x01; x11] ++ failing_read) eq_refl).
Defined.

Lemma Close_releases_once_witness :
  device opened = Some 0%nat /\
  hid_Close transport 0%nat [OnClose (Some io_error)] =
  (Some io_error, []) /\
  run transport (Close_twice opened) [OnClose (Some io_error)] =
  (Returned (closed, Some (HidError io_error), None), [], [EvClose 0%nat]).
Proof.
  split; [reflexivity|]. split; [reflexivity|].
  apply (Close_releases_once transport opened 0%nat
           [OnClose (Some io_error)] [] (Some io_error) eq_refl eq_refl).
Defined.

Lemma GetSerial_asks_the_device_witness :
  device opened = Some 0%nat /\
  hid_GetSerialNbr transport 0%nat [OnGetSerialNbr "YK12345" None] =
  (("YK12345"%string, None), []) /\
  run transport (GetSerial opened) [OnGetSerialNbr "YK12345" None] =
  (Returned ("YK12345"%string, None), [], [EvGetSerialNbr 0%nat]).
Proof.
  split; [reflexivity|]. split; [reflexivity|].
  apply (GetSerial_asks_the_device transport opened 0%nat
           [OnGetSerialNbr "YK12345" None] [] "YK12345" None
           eq_refl eq_refl).
Defined.

Lemma NewWithSerial_outcomes_witness :
  hid_Init (ScriptLib.library nat)
    [ScriptLib.OnInit None; ScriptLib.OnOpen (Some 3%nat) None] =
  (None, [ScriptLib.OnOpen (Some 3%nat) None]) /\
  "YK12345"%string <> EmptyString /\
  hid_Open (ScriptLib.library nat) 0x04D8 0xF11B "YK12345"
    [ScriptLib.OnOpen (Some 3%nat) None] = ((Some 3%nat, None), []) /\
  NewWithSerial (ScriptLib.library nat) "YK12345"
    [ScriptLib.OnInit None; ScriptLib.OnOpen (Some 3%nat) None] =
  ((Some (mkYKUSH3 (Some 3%nat) "YK12345"), None), [],
   [EvInit; EvOpen 0x04D8 0xF11B "YK12345"]).
Proof.
  assert (Hne : "YK12345"%string <> EmptyString) by discriminate.
  split; [reflexivity|]. split; [exact Hne|]. split; [reflexivity|].
  destruct (NewWithSerial_outcomes (ScriptLib.library nat) "YK12345"
              [ScriptLib.OnInit None; ScriptLib.OnOpen (Some 3%nat) None])
    as (_ & _ & Hopen & _).
  apply (Hopen [ScriptLib.OnOpen (Some 3%nat) None] [] (Some 3%nat) None
           eq_refl Hne eq_refl).
Defined.

Lemma ListDevices_outcomes_witness :
  hid_Init (ScriptLib.library nat)
    [ScriptLib.OnInit None;
     ScriptLib.OnEnumerate [7%nat; 8%nat] (Some io_error)] =
  (None, [ScriptLib.OnEnumerate [7%nat; 8%nat] (Some io_error)]) /\
  hid_Enumerate (ScriptLib.library nat) 0x04D8 0xF11B
    [ScriptLib.OnEnumerate [7%nat; 8%nat] (Some io_error)] =
  (([7%nat; 8%nat], Some io_error), []) /\
  ListDevices (ScriptLib.library nat)
    [ScriptLib.OnInit None;
     ScriptLib.OnEnumerate [7%nat; 8%nat] (Some io_error)] =
  (([], Some (EnumerateFailed io_error)), [],
   [EvInit; EvEnumerate 0x04D8 0xF11B]).
Proof.
  split; [reflexivity|]. split; [reflexivity|].
  destruct (ListDevices_outcomes (ScriptLib.library nat)
              [ScriptLib.OnInit None;
               ScriptLib.OnEnumerate [7%nat; 8%nat] (Some io_error)])
    as (_ & _ & Hfail).
  apply (Hfail [ScriptLib.OnEnumerate [7%nat; 8%nat] (Some io_error)] []
           [7%nat; 8%nat] io_error eq_refl eq_refl).
Defined.

Lemma nothing_reaches_the_device_after_Close_witness :
  device opened = Some 0%nat /\
  PortUp_cmd Port1 = Some x11 /\
  run transport (use_after_Close opened Port1)
    (replies [x01; x11] ++ [OnClose None]) =
  (Returned (None, None, Some NotConnected, None), [],
   exchanged 0%nat x11 ++ [EvClose 0%nat]).
Proof.
  split; [reflexivity|]. split; [reflexivity|].
  destruct (nothing_reaches_the_device_after_Close transport opened 0%nat
              Port1 x11 (replies [x01; x11] ++ [OnClose None])
              eq_refl eq_refl)
    as (err1 & cerr & s1 & s2 & tr1 & Hup & Hclose & Hrun).
  injection Hup as <- <- <-. injection Hclose as <- <-. exact Hrun.
Defined.

Lemma Port_String_names_witness :
  4 <> AllPorts /\ Port_String 4 = "Port 4"%string.
Proof.
  assert (Hne : 4 <> AllPorts) by discriminate.
  split; [exact Hne|].
  apply (proj1 (proj2 (Port_String_names 4 4 PortOn PortOn)) Hne).
Defined.

Lemma command_bytes_unambiguous_witness :
  PortUp_cmd Port1 = Some x11 /\ PortDown_cmd AllPorts <> Some x11.
Proof.
  split; [reflexivity|].
  destruct (command_bytes_unambiguous Port1 AllPorts x11)
    as (_ & _ & _ & H & _).
  apply H. reflexivity.
Defined.

Lemma state_codes_are_port_commands_witness :
  (exists p : Port,
     (p = Port1 \/ p = Port2 \/ p = Port3) /\ PortUp_cmd p = Some x12) /\
  decode_state x12 = (PortOn, None).
Proof.
  assert (H : exists p : Port,
            (p = Port1 \/ p = Port2 \/ p = Port3) /\ PortUp_cmd p = Some x12)
    by (exists Port2; split; [right; left|]; reflexivity).
  split; [exact H|].
  apply (proj2 (proj1 (state_codes_are_port_commands x12)) H).
Defined.

Lemma Error_text_identifies_witness :
  own_check (CommandFailed x00) /\ own_check (CommandFailed x00) /\
  Error (CommandFailed x00) = "command failed: status=0x00"%string /\
  CommandFailed x00 = CommandFailed x00.
Proof.
  split; [exact I|]. split; [exact I|]. split; [reflexivity|].
  apply (Error_text_identifies (CommandFailed x00) (CommandFailed x00) I I
           eq_refl).
Defined.

Lemma GetAllPortsState_map_lookup_witness :
  run transport (GetPortState opened Port1)
    (replies [x01; x11] ++ replies [x01; x02] ++ replies [x01; x13]) =
  (Returned (PortOn, None), replies [x01; x02] ++ replies [x01; x13],
   exchanged 0%nat x21) /\
  run transport (GetPortState opened Port2)
    (replies [x01; x02] ++ replies [x01; x13]) =
  (Returned (PortOff, None), replies [x01; x13], exchanged 0%nat x22) /\
  run transport (GetPortState opened Port3) (replies [x01; x13]) =
  (Returned (PortOn, None), [], exchanged 0%nat x23) /\
  exists m : gmap Z bool,
    run transport (GetAllPortsState opened)
      (replies [x01; x11] ++ replies [x01; x02] ++ replies [x01; x13]) =
    (Returned (Some m, None), [],
     exchanged 0%nat x21 ++ exchanged 0%nat x22 ++ exchanged 0%nat x23) /\
    m !! Port2 = Some PortOff /\ m !! AllPorts = None.
Proof.
  split; [reflexivity|]. split; [reflexivity|]. split; [reflexivity|].
  destruct (GetAllPortsState_map_lookup transport opened
              (replies [x01; x11] ++ replies [x01; x02] ++
               replies [x01; x13])
              (replies [x01; x02] ++ replies [x01; x13])
              (replies [x01; x13]) [] PortOn PortOff PortOn
              (exchanged 0%nat x21) (exchanged 0%nat x22)
              (exchanged 0%nat x23) eq_refl eq_refl eq_refl)
    as (m & Hrun & _ & H2 & _ & Hall & _).
  exists m. split; [exact Hrun|]. split; [exact H2 | exact Hall].
Defined.
